(** * Civo Terraform provider: firewall, firewall rule and volume attachment

    A shallow embedding of the resource handlers of
    [civo/resource_firewall_rule.go] (firewall rule and firewall resources)
    and of the volume attachment resource, together with the properties of
    their create / read / update / delete / import functions.

    The handlers are Go functions that mutate a [*schema.ResourceData] and
    talk to the vendor API through a [*civogo.Client].  Both are threaded
    through a small state monad whose outcome is either a normal return or a
    Go runtime panic (nil pointer dereference).  The vendor API itself is a
    parameter: every theorem holds for any behaviour of the remote side.
    [log.Printf] lines only print and are left out. *)

From stdpp Require Import gmap strings list fin_maps pretty.

(** ** Go values *)

(** A Go [error], identified with the message [err.Error()] that the
    handlers print with [%s] / [%v]. *)
Definition error : Type := string.

(** The result of a vendor SDK call, a pointer to [T] and an [error]: either
    component may be [nil]. *)
Definition Reply (T : Type) : Type := (option T * option error)%type.

(** ** Vendor objects ([civogo]); only the fields the handlers read. *)
Module civogo.

Module Firewall.
Record t := mk { ID : string; Name : string; NetworkID : string }.
End Firewall.

Module FirewallRule.
Record t := mk {
  ID : string;
  FirewallID : string;
  Protocol : string;
  StartPort : string;
  EndPort : string;
  Cidr : list string;
  Direction : string;
  Action : string;
  Label : string;
}.
End FirewallRule.

Module Volume.
Record t := mk { ID : string; InstanceID : string }.
End Volume.

Module FirewallConfig.
Record t := mk { Name : string }.
End FirewallConfig.

Module FirewallRuleConfig.
Record t := mk {
  FirewallID : string;
  Protocol : string;
  StartPort : string;
  EndPort : string;
  Cidr : list string;
  Direction : string;
  Action : string;
  Label : string;
}.
End FirewallRuleConfig.

Module FirewallResult.
Record t := mk { ID : string }.
End FirewallResult.

Module Network.
Record t := mk { ID : string }.
End Network.

End civogo.

(** ** Diagnostics ([diag]) *)
Module diag.

Inductive Severity := Error | Warning.

Record Diagnostic := mk { severity : Severity; Summary : string }.

(** [nil] is "no diagnostic". *)
Definition Diagnostics : Type := list Diagnostic.

(** [diag.Errorf(format, a...)]: one error diagnostic whose summary is the
    formatted message. *)
Definition Errorf (msg : string) : Diagnostics :=
  [ {| severity := Error; Summary := msg |} ].

Definition HasError (ds : Diagnostics) : bool :=
  existsb (λ x, match severity x with Error => true | Warning => false end) ds.

End diag.

(** ** Resource data ([schema.ResourceData]) *)

(** Attribute values, by schema type: [TypeString] and [TypeBool] attributes
    and [TypeSet] of strings. *)
Record Fields := mkFields {
  strs : gmap string string;
  bools : gmap string bool;
  sets : gmap string (gset string);
}.

Definition no_fields : Fields := {| strs := ∅; bools := ∅; sets := ∅ |}.

(** The three levels a [ResourceData] reads from: the prior state, the
    planned values (state merged with the diff) and what [d.Set] wrote during
    the call. *)
Record ResourceData := mkResourceData {
  rd_Id : string;
  rd_state : Fields;
  rd_diff : Fields;
  rd_set : Fields;
}.

(** [d.Id()] *)
Definition Id (d : ResourceData) : string := rd_Id d.

(** [d.SetId(v)] *)
Definition SetId (v : string) (d : ResourceData) : ResourceData :=
  {| rd_Id := v; rd_state := rd_state d; rd_diff := rd_diff d; rd_set := rd_set d |}.

(** [d.Get(key).(string)]: the written value, else the planned one, else the
    zero value. *)
Definition Get (key : string) (d : ResourceData) : string :=
  match strs (rd_set d) !! key with
  | Some v => v
  | None => default "" (strs (rd_diff d) !! key)
  end.

(** [d.Get(key).(bool)] *)
Definition GetBool (key : string) (d : ResourceData) : bool :=
  match bools (rd_set d) !! key with
  | Some v => v
  | None => default false (bools (rd_diff d) !! key)
  end.

(** [d.Get(key)] asserted to a set of strings. *)
Definition GetSet (key : string) (d : ResourceData) : gset string :=
  match sets (rd_set d) !! key with
  | Some v => v
  | None => default ∅ (sets (rd_diff d) !! key)
  end.

(** [d.GetOk(key)] on a string attribute: the value, and whether it is set to
    a non-zero value. *)
Definition GetOk (key : string) (d : ResourceData) : string * bool :=
  let v := Get key d in (v, bool_decide (v ≠ "")).

(** [d.Set(key, value)] with a string value. *)
Definition Set_ (key value : string) (d : ResourceData) : ResourceData :=
  {| rd_Id := rd_Id d; rd_state := rd_state d; rd_diff := rd_diff d;
     rd_set := {| strs := <[key := value]> (strs (rd_set d));
                  bools := bools (rd_set d);
                  sets := sets (rd_set d) |} |}.

(** [d.Set(key, value)] with a [[]string] value for a [TypeSet] attribute. *)
Definition SetList (key : string) (value : list string) (d : ResourceData)
  : ResourceData :=
  {| rd_Id := rd_Id d; rd_state := rd_state d; rd_diff := rd_diff d;
     rd_set := {| strs := strs (rd_set d);
                  bools := bools (rd_set d);
                  sets := <[key := list_to_set value]> (sets (rd_set d)) |} |}.

(** [d.HasChange(key)] on a string attribute: prior state against planned
    value. *)
Definition HasChange (key : string) (d : ResourceData) : bool :=
  bool_decide (default "" (strs (rd_state d) !! key)
               ≠ default "" (strs (rd_diff d) !! key)).

(** ** Schema declarations ([schema.Schema], [schema.Resource]) *)
Module schema.

Inductive ValueType := TypeBool | TypeString | TypeSet.

(** The validation functions the resources attach to their attributes. *)
Inductive SchemaValidateFunc :=
| ValidateName
| StringInSlice (valid : list string) (ignoreCase : bool)
| NoZeroValues
| StringIsNotEmpty.

(** A [schema.Schema] literal; a field the Go literal leaves out has its
    zero value ([false], [None]). *)
Record Schema := mkSchema {
  Type_ : ValueType;
  Required : bool;
  Optional : bool;
  Computed : bool;
  ForceNew : bool;
  Default : option bool;
  ValidateFunc : option SchemaValidateFunc;
  Elem : option ValueType;
  Description : string;
}.

(** [schema.ResourceImporter]: the [State] or the [StateContext] function. *)
Inductive ResourceImporter (I : Type) :=
| State (f : I)
| StateContext (f : I).

(** [schema.Resource], over the type [H] of the CRUD functions and the type
    [I] of the import function; an operation the literal does not register
    is [None]. *)
Record Resource (H I : Type) := mkResource {
  ResourceDescription : string;
  Schema_ : gmap string Schema;
  CreateContext : option H;
  ReadContext : option H;
  UpdateContext : option H;
  DeleteContext : option H;
  Importer : option (ResourceImporter I);
}.

Arguments State {I}.
Arguments StateContext {I}.
Arguments mkResource {H I}.
Arguments ResourceDescription {H I}.
Arguments Schema_ {H I}.
Arguments CreateContext {H I}.
Arguments ReadContext {H I}.
Arguments UpdateContext {H I}.
Arguments DeleteContext {H I}.
Arguments Importer {H I}.

End schema.

(** The three resource kinds of the provider. *)
Inductive Kind := KFirewall | KFirewallRule | KVolumeAttachment.

(** ** Remote calls *)

(** The SDK methods the handlers invoke, with the arguments of the call. *)
Inductive Call :=
| CallGetDefaultNetwork
| CallNewFirewall (name networkID : string) (CreateRules : bool)
| CallFindFirewall (id : string)
| CallRenameFirewall (id : string) (config : civogo.FirewallConfig.t)
| CallDeleteFirewall (id : string)
| CallNewFirewallRule (config : civogo.FirewallRuleConfig.t)
| CallFindFirewallRule (firewallID id : string)
| CallDeleteFirewallRule (firewallID id : string)
| CallFindVolume (id : string)
| CallAttachVolume (volumeID instanceID : string)
| CallDetachVolume (id : string).

Definition is_rename (c : Call) : bool :=
  match c with CallRenameFirewall _ _ => true | _ => false end.

Definition is_attach (c : Call) : bool :=
  match c with CallAttachVolume _ _ => true | _ => false end.

(** The vendor side: what each SDK method answers, given the client's region
    and the remote state [R], and the remote state it leaves behind.
    [SimpleResponse] is the acknowledgement type of the mutating calls; the
    handlers discard it. *)
Record Backend (R SimpleResponse : Type) := mkBackend {
  api_GetDefaultNetwork : string → R → Reply civogo.Network.t * R;
  api_NewFirewall :
    string → string → string → bool → R → Reply civogo.FirewallResult.t * R;
  api_FindFirewall : string → string → R → Reply civogo.Firewall.t * R;
  api_RenameFirewall :
    string → string → civogo.FirewallConfig.t → R → Reply SimpleResponse * R;
  api_DeleteFirewall : string → string → R → Reply SimpleResponse * R;
  api_NewFirewallRule :
    string → civogo.FirewallRuleConfig.t → R → Reply civogo.FirewallRule.t * R;
  api_FindFirewallRule :
    string → string → string → R → Reply civogo.FirewallRule.t * R;
  api_DeleteFirewallRule :
    string → string → string → R → Reply SimpleResponse * R;
  api_FindVolume : string → string → R → Reply civogo.Volume.t * R;
  api_AttachVolume : string → string → string → R → Reply SimpleResponse * R;
  api_DetachVolume : string → string → R → Reply SimpleResponse * R;
}.

Arguments mkBackend {R SimpleResponse}.
Arguments api_GetDefaultNetwork {R SimpleResponse}.
Arguments api_NewFirewall {R SimpleResponse}.
Arguments api_NewFirewallRule {R SimpleResponse}.
Arguments api_FindFirewall {R SimpleResponse}.
Arguments api_RenameFirewall {R SimpleResponse}.
Arguments api_DeleteFirewall {R SimpleResponse}.
Arguments api_FindFirewallRule {R SimpleResponse}.
Arguments api_DeleteFirewallRule {R SimpleResponse}.
Arguments api_FindVolume {R SimpleResponse}.
Arguments api_AttachVolume {R SimpleResponse}.
Arguments api_DetachVolume {R SimpleResponse}.

(** ** Execution state and monad *)

(** What a handler can touch: the resource data [d], the client [m] (its
    [Region] field and the remote state behind it), the calls issued so far
    and the counter behind [resource.PrefixedUniqueId]. *)
Record Env (R : Type) := mkEnv {
  d : ResourceData;
  Region : string;
  remote : R;
  calls : list Call;
  idCounter : nat;
}.

Arguments mkEnv {R}.
Arguments d {R}.
Arguments Region {R}.
Arguments remote {R}.
Arguments calls {R}.
Arguments idCounter {R}.

(** A handler either returns a value or panics. *)
Inductive Outcome (R A : Type) :=
| Returned (a : A) (e : Env R)
| Panicked (e : Env R).

Arguments Returned {R A}.
Arguments Panicked {R A}.

(** The state a handler stopped in, returning or panicking. *)
Definition outcome_env {R A} (o : Outcome R A) : Env R :=
  match o with
  | Returned _ e => e
  | Panicked e => e
  end.

Definition M (R A : Type) : Type := Env R → Outcome R A.

Global Instance M_ret {R} : MRet (M R) := λ A a e, Returned a e.

Global Instance M_bind {R} : MBind (M R) := λ A B f m e,
  match m e with
  | Returned a e' => f a e'
  | Panicked e' => Panicked e'
  end.

(** Go's "invalid memory address or nil pointer dereference". *)
Definition panic {R A} : M R A := λ e, Panicked e.

(** Reading a field through a pointer. *)
Definition deref {R A} (p : option A) : M R A :=
  match p with
  | Some x => mret x
  | None => panic
  end.

Definition read_d {R A} (f : ResourceData → A) : M R A :=
  λ e, Returned (f (d e)) e.

Definition write_d {R} (f : ResourceData → ResourceData) : M R unit :=
  λ e, Returned () (mkEnv (f (d e)) (Region e) (remote e) (calls e) (idCounter e)).

(** [apiClient.Region = region] *)
Definition set_Region {R} (region : string) : M R unit :=
  λ e, Returned () (mkEnv (d e) region (remote e) (calls e) (idCounter e)).

(** One SDK call: recorded, answered by the backend for the client's current
    region. *)
Definition sdk {R T} (c : Call) (f : string → R → Reply T * R) : M R (Reply T) :=
  λ e, let '(reply, remote') := f (Region e) (remote e) in
       Returned reply (mkEnv (d e) (Region e) remote' (calls e ++ [c]) (idCounter e)).

(** ** The handlers *)

Section Provider.

Context {R SimpleResponse : Type}.

(** The vendor API behind [apiClient]. *)
Variable api : Backend R SimpleResponse.

(** [utils.ResourceCommonParseID], of the provider's [internal/utils]
    package: it splits an import identifier into two parts or fails. *)
Variable ResourceCommonParseID : string → string * string * option error.

(** The unique part that [resource.PrefixedUniqueId] (host SDK) appends to
    the prefix: a timestamp and the incremented counter. *)
Variable UniqueIdSuffix : nat → string.

(** The [List()] method of the host SDK's [schema.Set]: the elements of the
    set in the order the SDK gives them, that of their hash codes. *)
Variable ListOfSet : gset string → list string.

Abbreviation M := (M R).

(** SDK methods of [apiClient]. *)
Definition GetDefaultNetwork : M (Reply civogo.Network.t) :=
  sdk CallGetDefaultNetwork (λ region, api_GetDefaultNetwork api region).

Definition NewFirewall (name networkID : string) (CreateRules : bool)
  : M (Reply civogo.FirewallResult.t) :=
  sdk (CallNewFirewall name networkID CreateRules)
      (λ region, api_NewFirewall api region name networkID CreateRules).

Definition NewFirewallRule (config : civogo.FirewallRuleConfig.t)
  : M (Reply civogo.FirewallRule.t) :=
  sdk (CallNewFirewallRule config)
      (λ region, api_NewFirewallRule api region config).

Definition FindFirewall (id : string) : M (Reply civogo.Firewall.t) :=
  sdk (CallFindFirewall id) (λ region, api_FindFirewall api region id).

Definition RenameFirewall (id : string) (config : civogo.FirewallConfig.t)
  : M (Reply SimpleResponse) :=
  sdk (CallRenameFirewall id config)
      (λ region, api_RenameFirewall api region id config).

Definition DeleteFirewall (id : string) : M (Reply SimpleResponse) :=
  sdk (CallDeleteFirewall id) (λ region, api_DeleteFirewall api region id).

Definition FindFirewallRule (firewallID id : string)
  : M (Reply civogo.FirewallRule.t) :=
  sdk (CallFindFirewallRule firewallID id)
      (λ region, api_FindFirewallRule api region firewallID id).

Definition DeleteFirewallRule (firewallID id : string)
  : M (Reply SimpleResponse) :=
  sdk (CallDeleteFirewallRule firewallID id)
      (λ region, api_DeleteFirewallRule api region firewallID id).

Definition FindVolume (id : string) : M (Reply civogo.Volume.t) :=
  sdk (CallFindVolume id) (λ region, api_FindVolume api region id).

Definition AttachVolume (volumeID instanceID : string)
  : M (Reply SimpleResponse) :=
  sdk (CallAttachVolume volumeID instanceID)
      (λ region, api_AttachVolume api region volumeID instanceID).

Definition DetachVolume (id : string) : M (Reply SimpleResponse) :=
  sdk (CallDetachVolume id) (λ region, api_DetachVolume api region id).

(** [resource.PrefixedUniqueId(prefix)] *)
Definition PrefixedUniqueId (prefix : string) : M string :=
  λ e, let n := S (idCounter e) in
       Returned (prefix +:+ UniqueIdSuffix n)
                (mkEnv (d e) (Region e) (remote e) (calls e) n).

(** The opening lines of every handler:
    [if region, ok := d.GetOk("region"); ok { apiClient.Region = region }] *)
Definition overwriteRegion : M unit :=
  '(region, ok) ← read_d (GetOk "region");
  if ok : bool then set_Region region else mret ().

(** *** Firewall rule *)

Definition resourceFirewallRuleRead : M diag.Diagnostics :=
  overwriteRegion;;
  firewallID ← read_d (Get "firewall_id");
  id ← read_d Id;
  '(resp, err) ← FindFirewallRule firewallID id;
  match err with
  | Some err =>
      match resp with
      | None => write_d (SetId "");; mret []
      | Some _ =>
          mret (diag.Errorf ("[ERR] error retrieving firewall rule: " +:+ err))
      end
  | None =>
      resp ← deref resp;
      write_d (Set_ "firewall_id" (civogo.FirewallRule.FirewallID resp));;
      write_d (Set_ "protocol" (civogo.FirewallRule.Protocol resp));;
      write_d (Set_ "start_port" (civogo.FirewallRule.StartPort resp));;
      (if bool_decide (civogo.FirewallRule.EndPort resp ≠ "")
       then write_d (Set_ "end_port" (civogo.FirewallRule.EndPort resp))
       else mret ());;
      write_d (SetList "cidr" (civogo.FirewallRule.Cidr resp));;
      write_d (Set_ "direction" (civogo.FirewallRule.Direction resp));;
      write_d (Set_ "action" (civogo.FirewallRule.Action resp));;
      write_d (Set_ "label" (civogo.FirewallRule.Label resp));;
      mret []
  end.

(** [config.EndPort] and [config.Label] stay at their zero value unless
    [d.GetOk] reports the attribute set; for a string attribute that is the
    value [d.Get] returns. *)
Definition resourceFirewallRuleCreate : M diag.Diagnostics :=
  overwriteRegion;;
  tfCidr ← read_d (λ d, ListOfSet (GetSet "cidr" d));
  let cird := tfCidr in
  firewallID ← read_d (Get "firewall_id");
  protocol ← read_d (Get "protocol");
  startPort ← read_d (Get "start_port");
  direction ← read_d (Get "direction");
  action ← read_d (Get "action");
  '(endPort, okEndPort) ← read_d (GetOk "end_port");
  '(label, okLabel) ← read_d (GetOk "label");
  let config :=
    {| civogo.FirewallRuleConfig.FirewallID := firewallID;
       civogo.FirewallRuleConfig.Protocol := protocol;
       civogo.FirewallRuleConfig.StartPort := startPort;
       civogo.FirewallRuleConfig.EndPort := if okEndPort : bool then endPort else "";
       civogo.FirewallRuleConfig.Cidr := cird;
       civogo.FirewallRuleConfig.Direction := direction;
       civogo.FirewallRuleConfig.Action := action;
       civogo.FirewallRuleConfig.Label := if okLabel : bool then label else "" |} in
  '(firewallRule, err) ← NewFirewallRule config;
  match err with
  | Some err =>
      mret (diag.Errorf ("[ERR] failed to create a new firewall rule: " +:+ err))
  | None =>
      firewallRule ← deref firewallRule;
      write_d (SetId (civogo.FirewallRule.ID firewallRule));;
      resourceFirewallRuleRead
  end.

Definition resourceFirewallRuleDelete : M diag.Diagnostics :=
  overwriteRegion;;
  firewallID ← read_d (Get "firewall_id");
  id ← read_d Id;
  '(_, err) ← DeleteFirewallRule firewallID id;
  match err with
  | Some err =>
      id ← read_d Id;
      mret (diag.Errorf
              ("[ERR] an error occurred while tring to delete firewall rule "
               +:+ id +:+ " - " +:+ err))
  | None => mret []
  end.

(** The importer returns [([]*schema.ResourceData, error)]; the slice holds
    the pointer [d] itself, here its value at return. *)
Definition resourceFirewallRuleImport
  : M (list ResourceData * option error) :=
  overwriteRegion;;
  id ← read_d Id;
  let '(firewallID, firewallRuleID, err) := ResourceCommonParseID id in
  match err with
  | Some err => mret ([], Some err)
  | None =>
      '(resp, err) ← FindFirewallRule firewallID firewallRuleID;
      match err, resp with
      | Some err, Some _ => mret ([], Some err)
      | _, _ =>
          resp ← deref resp;
          write_d (SetId (civogo.FirewallRule.ID resp));;
          write_d (Set_ "firewall_id" (civogo.FirewallRule.FirewallID resp));;
          write_d (Set_ "protocol" (civogo.FirewallRule.Protocol resp));;
          write_d (Set_ "start_port" (civogo.FirewallRule.StartPort resp));;
          write_d (Set_ "end_port" (civogo.FirewallRule.EndPort resp));;
          write_d (SetList "cidr" (civogo.FirewallRule.Cidr resp));;
          write_d (Set_ "direction" (civogo.FirewallRule.Direction resp));;
          write_d (Set_ "action" (civogo.FirewallRule.Action resp));;
          write_d (Set_ "label" (civogo.FirewallRule.Label resp));;
          d' ← read_d (λ x, x);
          mret ([d'], None)
      end
  end.

(** *** Firewall *)

Definition resourceFirewallRead : M diag.Diagnostics :=
  overwriteRegion;;
  id ← read_d Id;
  '(resp, err) ← FindFirewall id;
  match err with
  | Some err =>
      match resp with
      | None => write_d (SetId "");; mret []
      | Some _ =>
          mret (diag.Errorf ("[ERR] error retrieving firewall: " +:+ err))
      end
  | None =>
      resp ← deref resp;
      write_d (Set_ "name" (civogo.Firewall.Name resp));;
      write_d (Set_ "network_id" (civogo.Firewall.NetworkID resp));;
      mret []
  end.

Definition resourceFirewallCreate : M diag.Diagnostics :=
  overwriteRegion;;
  '(attr, ok) ← read_d (GetOk "network_id");
  let create (networkID : string) : M diag.Diagnostics :=
    CreateRules ← read_d (GetBool "create_default_rules");
    name ← read_d (Get "name");
    '(firewall, err) ← NewFirewall name networkID CreateRules;
    match err with
    | Some err =>
        mret (diag.Errorf ("[ERR] failed to create a new firewall: " +:+ err))
    | None =>
        firewall ← deref firewall;
        write_d (SetId (civogo.FirewallResult.ID firewall));;
        resourceFirewallRead
    end in
  if ok : bool then create attr
  else
    '(network, err) ← GetDefaultNetwork;
    match err with
    | Some err =>
        mret (diag.Errorf ("[ERR] failed to get the default network: " +:+ err))
    | None =>
        network ← deref network;
        create (civogo.Network.ID network)
    end.

Definition resourceFirewallUpdate : M diag.Diagnostics :=
  overwriteRegion;;
  changed ← read_d (HasChange "name");
  name ← read_d (Get "name");
  if changed && bool_decide (name ≠ "") then
    let firewall := {| civogo.FirewallConfig.Name := name |} in
    id ← read_d Id;
    '(_, err) ← RenameFirewall id firewall;
    match err with
    | Some err =>
        id ← read_d Id;
        mret (diag.Errorf
                ("[WARN] an error occurred while tring to rename the firewall "
                 +:+ id +:+ ", " +:+ err))
    | None => resourceFirewallRead
    end
  else resourceFirewallRead.

Definition resourceFirewallDelete : M diag.Diagnostics :=
  overwriteRegion;;
  firewallID ← read_d Id;
  '(_, err) ← FindFirewall firewallID;
  match err with
  | Some _ => mret []
  | None =>
      '(_, err) ← DeleteFirewall firewallID;
      match err with
      | Some err =>
          mret (diag.Errorf
                  ("[ERR] an error occurred while tring to delete the firewall "
                   +:+ firewallID +:+ ", " +:+ err))
      | None => mret []
      end
  end.

(** *** Volume attachment *)

Definition resourceVolumeAttachmentRead : M diag.Diagnostics :=
  overwriteRegion;;
  instanceID ← read_d (Get "instance_id");
  volumeID ← read_d (Get "volume_id");
  '(resp, err) ← FindVolume volumeID;
  match err with
  | Some err =>
      match resp with
      | None => write_d (SetId "");; mret []
      | Some _ =>
          mret (diag.Errorf ("[ERR] failed retrieving the volume: " +:+ err))
      end
  | None =>
      resp ← deref resp;
      (if bool_decide (civogo.Volume.InstanceID resp = "")
          || bool_decide (civogo.Volume.InstanceID resp ≠ instanceID)
       then write_d (SetId "")
       else mret ());;
      mret []
  end.

Definition resourceVolumeAttachmentCreate : M diag.Diagnostics :=
  overwriteRegion;;
  instanceID ← read_d (Get "instance_id");
  volumeID ← read_d (Get "volume_id");
  '(volume, err) ← FindVolume volumeID;
  match err with
  | Some err => mret (diag.Errorf ("[ERR] Error retrieving volume: " +:+ err))
  | None =>
      volume ← deref volume;
      let finish : M diag.Diagnostics :=
        uid ← PrefixedUniqueId (instanceID +:+ "-" +:+ volumeID +:+ "-");
        write_d (SetId uid);;
        resourceVolumeAttachmentRead in
      if bool_decide (civogo.Volume.InstanceID volume = "")
         || bool_decide (civogo.Volume.InstanceID volume ≠ instanceID)
      then
        '(_, err) ← AttachVolume volumeID instanceID;
        match err with
        | Some err =>
            mret (diag.Errorf
                    ("[ERR] error attaching volume to instance " +:+ err))
        | None => finish
        end
      else finish
  end.

Definition resourceVolumeAttachmentDelete : M diag.Diagnostics :=
  overwriteRegion;;
  volumeID ← read_d (Get "volume_id");
  '(_, err) ← DetachVolume volumeID;
  match err with
  | Some err =>
      mret (diag.Errorf
              ("[ERR] an error occurred while tring to detach the volume "
               +:+ err))
  | None => mret []
  end.

(** *** Resource declarations *)

(** [schema.ImportStatePassthroughContext] (host SDK): the resource data as
    it is. *)
Definition ImportStatePassthroughContext
  : M (list ResourceData * option error) :=
  d' ← read_d (λ x, x);
  mret ([d'], None).

Definition resourceFirewallRule
  : schema.Resource (M diag.Diagnostics) (M (list ResourceData * option error)) :=
  {| schema.ResourceDescription := "Provides a Civo firewall rule resource. This can be used to create, modify, and delete firewalls rules. This resource don't have an update option because Civo backend doesn't support it at this moment. In that case, we use `ForceNew` for all object in the resource.";
     schema.Schema_ := list_to_map [
       ("firewall_id",
        {| schema.Type_ := schema.TypeString;
           schema.Required := true;
           schema.Optional := false;
           schema.Computed := false;
           schema.ForceNew := true;
           schema.Default := None;
           schema.ValidateFunc := Some schema.ValidateName;
           schema.Elem := None;
           schema.Description := "The Firewall ID" |});
       ("protocol",
        {| schema.Type_ := schema.TypeString;
           schema.Required := false;
           schema.Optional := true;
           schema.Computed := true;
           schema.ForceNew := true;
           schema.Default := None;
           schema.ValidateFunc :=
             Some (schema.StringInSlice ["tcp"; "udp"; "icmp"] false);
           schema.Elem := None;
           schema.Description := "The protocol choice from `tcp`, `udp` or `icmp` (the default if unspecified is `tcp`)" |});
       ("start_port",
        {| schema.Type_ := schema.TypeString;
           schema.Required := false;
           schema.Optional := true;
           schema.Computed := true;
           schema.ForceNew := true;
           schema.Default := None;
           schema.ValidateFunc := Some schema.NoZeroValues;
           schema.Elem := None;
           schema.Description := "The start of the port range to configure for this rule (or the single port if required)" |});
       ("end_port",
        {| schema.Type_ := schema.TypeString;
           schema.Required := false;
           schema.Optional := true;
           schema.Computed := true;
           schema.ForceNew := true;
           schema.Default := None;
           schema.ValidateFunc := Some schema.NoZeroValues;
           schema.Elem := None;
           schema.Description := "The end of the port range (this is optional, by default it will only apply to the single port listed in start_port)" |});
       ("cidr",
        {| schema.Type_ := schema.TypeSet;
           schema.Required := true;
           schema.Optional := false;
           schema.Computed := false;
           schema.ForceNew := true;
           schema.Default := None;
           schema.ValidateFunc := None;
           schema.Elem := Some schema.TypeString;
           schema.Description := "The CIDR notation of the other end to affect, or a valid network CIDR (e.g. 0.0.0.0/0 to open for everyone or 1.2.3.4/32 to open just for a specific IP address)" |});
       ("direction",
        {| schema.Type_ := schema.TypeString;
           schema.Required := true;
           schema.Optional := false;
           schema.Computed := false;
           schema.ForceNew := true;
           schema.Default := None;
           schema.ValidateFunc :=
             Some (schema.StringInSlice ["ingress"; "egress"] false);
           schema.Elem := None;
           schema.Description := "The direction of the rule can be ingress or egress" |});
       ("action",
        {| schema.Type_ := schema.TypeString;
           schema.Required := true;
           schema.Optional := false;
           schema.Computed := false;
           schema.ForceNew := true;
           schema.Default := None;
           schema.ValidateFunc :=
             Some (schema.StringInSlice ["allow"; "deny"] false);
           schema.Elem := None;
           schema.Description := "the action of the rule can be allow or deny" |});
       ("label",
        {| schema.Type_ := schema.TypeString;
           schema.Required := false;
           schema.Optional := true;
           schema.Computed := true;
           schema.ForceNew := true;
           schema.Default := None;
           schema.ValidateFunc := Some schema.StringIsNotEmpty;
           schema.Elem := None;
           schema.Description := "A string that will be the displayed name/reference for this rule" |});
       ("region",
        {| schema.Type_ := schema.TypeString;
           schema.Required := false;
           schema.Optional := true;
           schema.Computed := true;
           schema.ForceNew := true;
           schema.Default := None;
           schema.ValidateFunc := Some schema.StringIsNotEmpty;
           schema.Elem := None;
           schema.Description := "The region for this rule" |})
     ];
     schema.CreateContext := Some resourceFirewallRuleCreate;
     schema.ReadContext := Some resourceFirewallRuleRead;
     schema.UpdateContext := None;
     schema.DeleteContext := Some resourceFirewallRuleDelete;
     schema.Importer := Some (schema.State resourceFirewallRuleImport) |}.

Definition resourceFirewall
  : schema.Resource (M diag.Diagnostics) (M (list ResourceData * option error)) :=
  {| schema.ResourceDescription := "Provides a Civo firewall resource. This can be used to create, modify, and delete firewalls.";
     schema.Schema_ := list_to_map [
       ("name",
        {| schema.Type_ := schema.TypeString;
           schema.Required := true;
           schema.Optional := false;
           schema.Computed := false;
           schema.ForceNew := false;
           schema.Default := None;
           schema.ValidateFunc := Some schema.ValidateName;
           schema.Elem := None;
           schema.Description := "The firewall name" |});
       ("region",
        {| schema.Type_ := schema.TypeString;
           schema.Required := false;
           schema.Optional := true;
           schema.Computed := false;
           schema.ForceNew := false;
           schema.Default := None;
           schema.ValidateFunc := None;
           schema.Elem := None;
           schema.Description := "The firewall region, if is not defined we use the global defined in the provider" |});
       ("create_default_rules",
        {| schema.Type_ := schema.TypeBool;
           schema.Required := false;
           schema.Optional := true;
           schema.Computed := false;
           schema.ForceNew := true;
           schema.Default := Some true;
           schema.ValidateFunc := None;
           schema.Elem := None;
           schema.Description := "The create rules flag is used to create the default firewall rules, if is not defined will be set to true" |});
       ("network_id",
        {| schema.Type_ := schema.TypeString;
           schema.Required := false;
           schema.Optional := true;
           schema.Computed := true;
           schema.ForceNew := true;
           schema.Default := None;
           schema.ValidateFunc := None;
           schema.Elem := None;
           schema.Description := "The firewall network, if is not defined we use the default network" |})
     ];
     schema.CreateContext := Some resourceFirewallCreate;
     schema.ReadContext := Some resourceFirewallRead;
     schema.UpdateContext := Some resourceFirewallUpdate;
     schema.DeleteContext := Some resourceFirewallDelete;
     schema.Importer :=
       Some (schema.StateContext ImportStatePassthroughContext) |}.

Definition resourceVolumeAttachment
  : schema.Resource (M diag.Diagnostics) (M (list ResourceData * option error)) :=
  {| schema.ResourceDescription := "Manages volume attachment/detachment to an instance.";
     schema.Schema_ := list_to_map [
       ("instance_id",
        {| schema.Type_ := schema.TypeString;
           schema.Required := true;
           schema.Optional := false;
           schema.Computed := false;
           schema.ForceNew := true;
           schema.Default := None;
           schema.ValidateFunc := Some schema.NoZeroValues;
           schema.Elem := None;
           schema.Description := "The ID of target instance for attachment" |});
       ("volume_id",
        {| schema.Type_ := schema.TypeString;
           schema.Required := true;
           schema.Optional := false;
           schema.Computed := false;
           schema.ForceNew := true;
           schema.Default := None;
           schema.ValidateFunc := Some schema.NoZeroValues;
           schema.Elem := None;
           schema.Description := "The ID of target volume for attachment" |});
       ("region",
        {| schema.Type_ := schema.TypeString;
           schema.Required := false;
           schema.Optional := true;
           schema.Computed := false;
           schema.ForceNew := true;
           schema.Default := None;
           schema.ValidateFunc := None;
           schema.Elem := None;
           schema.Description := "The region for the volume attachment" |})
     ];
     schema.CreateContext := Some resourceVolumeAttachmentCreate;
     schema.ReadContext := Some resourceVolumeAttachmentRead;
     schema.UpdateContext := None;
     schema.DeleteContext := Some resourceVolumeAttachmentDelete;
     schema.Importer := None |}.

(** *** The three resources, by kind *)

Definition readContext (k : Kind) : M diag.Diagnostics :=
  match k with
  | KFirewall => resourceFirewallRead
  | KFirewallRule => resourceFirewallRuleRead
  | KVolumeAttachment => resourceVolumeAttachmentRead
  end.

(** The region the SDK calls of a handler started in [e] go to. *)
Definition client_region (e : Env R) : string :=
  let '(region, ok) := GetOk "region" (d e) in
  if ok : bool then region else Region e.

(** The state after the calls [cs] were issued from [e], the remote side
    being left as [remote']. *)
Definition after_calls (e : Env R) (cs : list Call) (remote' : R) : Env R :=
  mkEnv (d e) (client_region e) remote' (calls e ++ cs) (idCounter e).

(** What the lookup of a read answers: whether the response is non-nil, and
    the error. *)
Definition read_lookup (k : Kind) (e : Env R) : bool * option error :=
  match k with
  | KFirewall =>
      let '(resp, err, _) :=
        api_FindFirewall api (client_region e) (Id (d e)) (remote e) in
      (bool_decide (is_Some resp), err)
  | KFirewallRule =>
      let '(resp, err, _) :=
        api_FindFirewallRule api (client_region e)
          (Get "firewall_id" (d e)) (Id (d e)) (remote e) in
      (bool_decide (is_Some resp), err)
  | KVolumeAttachment =>
      let '(resp, err, _) :=
        api_FindVolume api (client_region e) (Get "volume_id" (d e)) (remote e) in
      (bool_decide (is_Some resp), err)
  end.

End Provider.

(** The resource data the import writes from a rule it found. *)
Definition imported (r : civogo.FirewallRule.t) (rd : ResourceData)
  : ResourceData :=
  Set_ "label" (civogo.FirewallRule.Label r)
    (Set_ "action" (civogo.FirewallRule.Action r)
       (Set_ "direction" (civogo.FirewallRule.Direction r)
          (SetList "cidr" (civogo.FirewallRule.Cidr r)
             (Set_ "end_port" (civogo.FirewallRule.EndPort r)
                (Set_ "start_port" (civogo.FirewallRule.StartPort r)
                   (Set_ "protocol" (civogo.FirewallRule.Protocol r)
                      (Set_ "firewall_id" (civogo.FirewallRule.FirewallID r)
                         (SetId (civogo.FirewallRule.ID r) rd)))))))).

(** A handler's diagnostics report a failure of the remote call that answered
    [err], and are empty when it answered no error. *)
Definition reports (err : option error) (diags : diag.Diagnostics) : Prop :=
  match err with
  | Some _ => diag.HasError diags = true
  | None => diags = []
  end.

(** The rename calls, and the attach calls, issued up to the end of a run. *)
Definition rename_calls {R A} (o : Outcome R A) : list Call :=
  filter is_rename (calls (outcome_env o)).

Definition attach_calls {R A} (o : Outcome R A) : list Call :=
  filter is_attach (calls (outcome_env o)).

(** The state in which a volume attachment create started in [e] hands over
    to the read: the identifier set to the prefixed unique string, the remote
    side as the calls [cs] left it. *)
Definition created {R} (UniqueIdSuffix : nat → string)
    (e : Env R) (cs : list Call) (remote' : R) : Env R :=
  mkEnv
    (SetId ((Get "instance_id" (d e) +:+ "-" +:+ Get "volume_id" (d e) +:+ "-")
            +:+ UniqueIdSuffix (S (idCounter e))) (d e))
    (client_region e) remote' (calls e ++ cs) (S (idCounter e)).

(** ** A scripted remote side, for the examples *)

(** Fixed answers: one per lookup, and one error (or none) for every mutating
    call. *)
Record Script := mkScript {
  on_FindFirewall : Reply civogo.Firewall.t;
  on_FindFirewallRule : Reply civogo.FirewallRule.t;
  on_FindVolume : Reply civogo.Volume.t;
  on_mutation : option error;
}.

Definition ack (err : option error) : Reply unit :=
  match err with
  | Some m => (None, Some m)
  | None => (Some (), None)
  end.

Definition scripted (s : Script) : Backend unit unit :=
  mkBackend
    (λ _ r, ((None, Some "not scripted"), r))
    (λ _ _ _ _ r, ((None, Some "not scripted"), r))
    (λ _ _ r, (on_FindFirewall s, r))
    (λ _ _ _ r, (ack (on_mutation s), r))
    (λ _ _ r, (ack (on_mutation s), r))
    (λ _ _ r, ((None, Some "not scripted"), r))
    (λ _ _ _ r, (on_FindFirewallRule s, r))
    (λ _ _ _ r, (ack (on_mutation s), r))
    (λ _ _ r, (on_FindVolume s, r))
    (λ _ _ _ r, (ack (on_mutation s), r))
    (λ _ _ r, (ack (on_mutation s), r)).

(** An import identifier parser for the examples: [parent:child], both parts
    non-empty. *)
Definition sample_ParseID (id : string) : string * string * option error :=
  match String.index 0 ":" id with
  | Some n =>
      let parent := String.substring 0 n id in
      let child := String.substring (S n) (String.length id - S n) id in
      if bool_decide (parent = "") || bool_decide (child = "")
      then ("", "", Some ("unexpected format of ID " +:+ id))
      else (parent, child, None)
  | None => ("", "", Some ("unexpected format of ID " +:+ id))
  end.

(** A unique suffix for the examples. *)
Definition sample_suffix (n : nat) : string := pretty n.

(** Resource data with the given identifier and planned string attributes,
    nothing in the prior state and nothing written yet. *)
Definition sample_data (id : string) (attrs : list (string * string))
  : ResourceData :=
  {| rd_Id := id;
     rd_state := no_fields;
     rd_diff := {| strs := list_to_map attrs; bools := ∅; sets := ∅ |};
     rd_set := no_fields |}.

Definition sample_env (id : string) (attrs : list (string * string)) : Env unit :=
  mkEnv (sample_data id attrs) "LON1" () [] 0.

Definition sample_rule : civogo.FirewallRule.t :=
  {| civogo.FirewallRule.ID := "rule-1";
     civogo.FirewallRule.FirewallID := "fw-1";
     civogo.FirewallRule.Protocol := "tcp";
     civogo.FirewallRule.StartPort := "443";
     civogo.FirewallRule.EndPort := "";
     civogo.FirewallRule.Cidr := ["0.0.0.0/0"];
     civogo.FirewallRule.Direction := "ingress";
     civogo.FirewallRule.Action := "allow";
     civogo.FirewallRule.Label := "https" |}.

Definition sample_firewall : civogo.Firewall.t :=
  {| civogo.Firewall.ID := "fw-1";
     civogo.Firewall.Name := "web";
     civogo.Firewall.NetworkID := "net-1" |}.

(** A remote side on which nothing exists: every lookup and every mutating
    call fails with a nil response. *)
Definition nothing_exists : Script :=
  {| on_FindFirewall := (None, Some "ZeroMatchesError");
     on_FindFirewallRule := (None, Some "ZeroMatchesError");
     on_FindVolume := (None, Some "ZeroMatchesError");
     on_mutation := Some "DatabaseNotFoundError" |}.

(** A remote side whose lookups fail although they hand back a response. *)
Definition fails_with_response : Script :=
  {| on_FindFirewall := (Some sample_firewall, Some "ServerError");
     on_FindFirewallRule := (Some sample_rule, Some "ServerError");
     on_FindVolume :=
       (Some {| civogo.Volume.ID := "vol-1"; civogo.Volume.InstanceID := "" |},
        Some "ServerError");
     on_mutation := Some "ServerError" |}.

(** A healthy remote side: a firewall, one of its rules, and a volume attached
    to the instance [attached_to]. *)
Definition healthy (attached_to : string) : Script :=
  {| on_FindFirewall := (Some sample_firewall, None);
     on_FindFirewallRule := (Some sample_rule, None);
     on_FindVolume :=
       (Some {| civogo.Volume.ID := "vol-1";
                civogo.Volume.InstanceID := attached_to |}, None);
     on_mutation := None |}.

(** A firewall rule in state, with a planned end port. *)
Definition rule_env : Env unit :=
  sample_env "rule-1" [("firewall_id", "fw-1"); ("end_port", "8443")].

(** A volume attachment in state. *)
Definition attachment_env : Env unit :=
  sample_env "inst-1-vol-1-7"
    [("instance_id", "inst-1"); ("volume_id", "vol-1"); ("region", "NYC1")].

(** A volume attachment about to be created. *)
Definition create_env : Env unit :=
  sample_env "" [("instance_id", "inst-1"); ("volume_id", "vol-1")].

(** A firewall rule about to be imported. *)
Definition import_env : Env unit := sample_env "fw-1:rule-1" [].

(** ** Vocabulary for the further properties *)

(** The lookup call a read of kind [k] issues for the resource data [rd]. *)
Definition lookup_call (k : Kind) (rd : ResourceData) : Call :=
  match k with
  | KFirewall => CallFindFirewall (Id rd)
  | KFirewallRule => CallFindFirewallRule (Get "firewall_id" rd) (Id rd)
  | KVolumeAttachment => CallFindVolume (Get "volume_id" rd)
  end.

(** The calls that change the remote side. *)
Definition is_mutation (c : Call) : bool :=
  match c with
  | CallNewFirewall _ _ _ | CallRenameFirewall _ _ | CallDeleteFirewall _
  | CallNewFirewallRule _ | CallDeleteFirewallRule _ _
  | CallAttachVolume _ _ | CallDetachVolume _ => true
  | CallGetDefaultNetwork | CallFindFirewall _ | CallFindFirewallRule _ _
  | CallFindVolume _ => false
  end.

(** The resource declaration of each kind. *)
Definition resource_of {R SimpleResponse} (api : Backend R SimpleResponse)
    (ResourceCommonParseID : string → string * string * option error)
    (UniqueIdSuffix : nat → string) (ListOfSet : gset string → list string)
    (k : Kind)
  : schema.Resource (M R diag.Diagnostics)
      (M R (list ResourceData * option error)) :=
  match k with
  | KFirewall => resourceFirewall api
  | KFirewallRule => resourceFirewallRule api ResourceCommonParseID ListOfSet
  | KVolumeAttachment => resourceVolumeAttachment api UniqueIdSuffix
  end.

(** The configuration [resourceFirewallRuleCreate] would send if every
    attribute were copied from the resource data as [d.Get] returns it, the
    [cidr] set listed by the SDK. *)
Definition rule_config_of (ListOfSet : gset string → list string)
    (rd : ResourceData) : civogo.FirewallRuleConfig.t :=
  {| civogo.FirewallRuleConfig.FirewallID := Get "firewall_id" rd;
     civogo.FirewallRuleConfig.Protocol := Get "protocol" rd;
     civogo.FirewallRuleConfig.StartPort := Get "start_port" rd;
     civogo.FirewallRuleConfig.EndPort := Get "end_port" rd;
     civogo.FirewallRuleConfig.Cidr := ListOfSet (GetSet "cidr" rd);
     civogo.FirewallRuleConfig.Direction := Get "direction" rd;
     civogo.FirewallRuleConfig.Action := Get "action" rd;
     civogo.FirewallRuleConfig.Label := Get "label" rd |}.

(** The attributes a firewall rule read writes. *)
Definition rule_read_keys : list string :=
  ["firewall_id"; "protocol"; "start_port"; "end_port"; "cidr"; "direction";
   "action"; "label"].

(** The create, read, update and delete functions a resource registers. *)
Definition registered {H I} (res : schema.Resource H I) : list H :=
  omap id
    [schema.CreateContext res; schema.ReadContext res;
     schema.UpdateContext res; schema.DeleteContext res].

(** A remote side that also creates: the default network, a new firewall
    and a new rule are handed out; everything else is as scripted by [s]. *)
Definition creating (s : Script) : Backend unit unit :=
  mkBackend
    (λ _ r, ((Some {| civogo.Network.ID := "net-default" |}, None), r))
    (λ _ _ _ _ r, ((Some {| civogo.FirewallResult.ID := "fw-1" |}, None), r))
    (api_FindFirewall (scripted s))
    (api_RenameFirewall (scripted s))
    (api_DeleteFirewall (scripted s))
    (λ _ _ r, ((Some sample_rule, None), r))
    (api_FindFirewallRule (scripted s))
    (api_DeleteFirewallRule (scripted s))
    (api_FindVolume (scripted s))
    (api_AttachVolume (scripted s))
    (api_DetachVolume (scripted s)).

(** A firewall in state. *)
Definition firewall_env : Env unit :=
  sample_env "fw-1" [("name", "old-name"); ("region", "NYC1")].

(** A firewall in state whose planned name is the one in the prior state. *)
Definition unchanged_firewall_env : Env unit :=
  mkEnv
    {| rd_Id := "fw-1";
       rd_state :=
         {| strs := {[ "name" := "web" ]}; bools := ∅; sets := ∅ |};
       rd_diff :=
         {| strs := {[ "name" := "web" ]}; bools := ∅; sets := ∅ |};
       rd_set := no_fields |}
    "LON1" () [] 0.

(** A firewall about to be created in a configured network. *)
Definition new_firewall_env : Env unit :=
  mkEnv
    {| rd_Id := "";
       rd_state := no_fields;
       rd_diff :=
         {| strs := list_to_map [("name", "web"); ("network_id", "net-9")];
            bools := {[ "create_default_rules" := true ]};
            sets := ∅ |};
       rd_set := no_fields |}
    "LON1" () [] 0.

(** A listing of sets for the examples.  The examples list sets of one
    element only, which every listing lists alike. *)
Definition sample_ListOfSet (s : gset string) : list string := elements s.

(** A firewall rule about to be created, open to one CIDR block, with a
    planned end port. *)
Definition new_rule_env : Env unit :=
  mkEnv
    {| rd_Id := "";
       rd_state := no_fields;
       rd_diff :=
         {| strs :=
              list_to_map
                [("firewall_id", "fw-1"); ("protocol", "tcp");
                 ("start_port", "443"); ("end_port", "8443");
                 ("direction", "ingress"); ("action", "allow")];
            bools := ∅;
            sets := {[ "cidr" := {[ "10.0.0.0/8" ]} ]} |};
       rd_set := no_fields |}
    "LON1" () [] 0.

(** * Properties *)

Section Properties.

Context {R SimpleResponse : Type}.
Variable api : Backend R SimpleResponse.
Variable ResourceCommonParseID : string → string * string * option error.
Variable UniqueIdSuffix : nat → string.
Variable ListOfSet : gset string → list string.

Lemma overwriteRegion_run (e : Env R) :
  overwriteRegion e
  = Returned () (mkEnv (d e) (client_region e) (remote e) (calls e) (idCounter e)).
Proof.
  unfold overwriteRegion, client_region, mbind, M_bind, read_d.
  destruct (GetOk "region" (d e)) as [region [|]]; simpl; [done|].
  by destruct e.
Qed.

(** Reading back what [d.Set] wrote. *)
Lemma Get_Set_eq key value rd : Get key (Set_ key value rd) = value.
Proof. unfold Get, Set_; simpl. by rewrite lookup_insert_eq. Qed.

Lemma Get_Set_ne key key' value rd :
  key' ≠ key → Get key (Set_ key' value rd) = Get key rd.
Proof. intros. unfold Get, Set_; simpl. by rewrite lookup_insert_ne. Qed.

Lemma Get_SetList key key' value rd : Get key (SetList key' value rd) = Get key rd.
Proof. done. Qed.

Lemma GetSet_SetList_eq key value rd :
  GetSet key (SetList key value rd) = list_to_set value.
Proof. unfold GetSet, SetList; simpl. by rewrite lookup_insert_eq. Qed.

Lemma GetSet_Set key key' value rd : GetSet key (Set_ key' value rd) = GetSet key rd.
Proof. done. Qed.

(** Reads every attribute back through the writes above it. *)
Ltac read_back :=
  repeat first [ rewrite Get_Set_eq | rewrite Get_Set_ne by done
               | rewrite Get_SetList | rewrite GetSet_SetList_eq
               | rewrite GetSet_Set ].

(** The written level itself. *)
Lemma written_Set_eq key value rd :
  strs (rd_set (Set_ key value rd)) !! key = Some value.
Proof. unfold Set_; simpl. by rewrite lookup_insert_eq. Qed.

Lemma written_Set_ne key key' value rd :
  key' ≠ key →
  strs (rd_set (Set_ key' value rd)) !! key = strs (rd_set rd) !! key.
Proof. intros. unfold Set_; simpl. by rewrite lookup_insert_ne. Qed.

Lemma written_SetList key key' value rd :
  strs (rd_set (SetList key' value rd)) !! key = strs (rd_set rd) !! key.
Proof. done. Qed.

Lemma prefixed_nonempty (a b suffix : string) :
  (a +:+ "-" +:+ b +:+ "-") +:+ suffix ≠ "".
Proof. by destruct a. Qed.

(** One step of a handler, by the kind of its first operation. *)
Lemma bind_read_d {A B} (f : ResourceData → A) (k : A → M R B) (e : Env R) :
  (read_d f ≫= k) e = k (f (d e)) e.
Proof. done. Qed.

Lemma bind_write_d {B} (f : ResourceData → ResourceData) (k : unit → M R B)
    (e : Env R) :
  (write_d f ≫= k) e
  = k () (mkEnv (f (d e)) (Region e) (remote e) (calls e) (idCounter e)).
Proof. done. Qed.

Lemma bind_overwriteRegion {B} (k : unit → M R B) (e : Env R) :
  (overwriteRegion ≫= k) e
  = k () (mkEnv (d e) (client_region e) (remote e) (calls e) (idCounter e)).
Proof. unfold mbind, M_bind. by rewrite overwriteRegion_run. Qed.

Lemma bind_sdk {T B} (c : Call) (f : string → R → Reply T * R)
    (k : option T * option error → M R B) (e : Env R) :
  (sdk c f ≫= k) e
  = let '(reply, remote') := f (Region e) (remote e) in
    k reply (mkEnv (d e) (Region e) remote' (calls e ++ [c]) (idCounter e)).
Proof. unfold mbind, M_bind, sdk. by destruct (f _ _). Qed.

Lemma bind_deref_Some {A B} (x : A) (k : A → M R B) (e : Env R) :
  (deref (Some x) ≫= k) e = k x e.
Proof. done. Qed.

Lemma bind_deref_None {A B} (k : A → M R B) (e : Env R) :
  (deref None ≫= k) e = Panicked e.
Proof. done. Qed.

Lemma bind_mret {A B} (x : A) (k : A → M R B) (e : Env R) :
  (mret x ≫= k) e = k x e.
Proof. done. Qed.

Lemma run_mret {A} (x : A) (e : Env R) : (mret x : M R A) e = Returned x e.
Proof. done. Qed.

Lemma bind_PrefixedUniqueId {B} (prefix : string) (k : string → M R B) (e : Env R) :
  (PrefixedUniqueId UniqueIdSuffix prefix ≫= k) e
  = k (prefix +:+ UniqueIdSuffix (S (idCounter e)))
      (mkEnv (d e) (Region e) (remote e) (calls e) (S (idCounter e))).
Proof. done. Qed.

(** Runs a handler up to the next answer of the backend.  The projections of
    the state are reduced after every step, which keeps the state small. *)
Ltac run_handler :=
  repeat (first
            [ rewrite bind_overwriteRegion | rewrite bind_read_d
            | rewrite bind_write_d | rewrite bind_sdk
            | rewrite bind_deref_Some | rewrite bind_deref_None
            | rewrite bind_mret | rewrite bind_PrefixedUniqueId
            | rewrite run_mret ];
          cbn [d Region remote calls idCounter]).

Ltac failed_lookup_done :=
  do 2 eexists; split; [reflexivity|]; cbn [d];
  first [ rewrite bool_decide_eq_true_2 by (by eexists)
        | rewrite bool_decide_eq_false_2 by (by intros [? ?]) ];
  done.

(** C2. A read whose lookup fails with a nil response clears the
    identifier and reports nothing; a read whose lookup fails with a
    non-nil response reports an error and leaves the resource data,
    identifier included, as it was.  This holds for the firewall, the
    firewall rule and the volume attachment. *)
Theorem read_failed_lookup (k : Kind) (e : Env R) (nonnil : bool) (err : error) :
  read_lookup api k e = (nonnil, Some err) →
  ∃ diags e',
    readContext api k e = Returned diags e' ∧
    if nonnil then diag.HasError diags = true ∧ d e' = d e
    else diags = [] ∧ d e' = SetId "" (d e).
Proof.
  destruct k; unfold read_lookup, readContext.
  - unfold resourceFirewallRead, FindFirewall. run_handler.
    destruct (api_FindFirewall _ _ _ _) as [[resp err'] remote'].
    intros [= <- ->]. destruct resp; run_handler; failed_lookup_done.
  - unfold resourceFirewallRuleRead, FindFirewallRule. run_handler.
    destruct (api_FindFirewallRule _ _ _ _ _) as [[resp err'] remote'].
    intros [= <- ->]. destruct resp; run_handler; failed_lookup_done.
  - unfold resourceVolumeAttachmentRead, FindVolume. run_handler.
    destruct (api_FindVolume _ _ _ _) as [[resp err'] remote'].
    intros [= <- ->]. destruct resp; run_handler; failed_lookup_done.
Qed.

(** C7. Let the lookup of a volume attachment read answer [resp] and [err].
    After a read that reports no error, a non-empty identifier implies that
    the lookup returned the volume without error and that the volume's
    instance pointer is the [instance_id] of the resource.  And when the
    lookup returns a volume whose instance pointer is empty or names another
    instance, the read returns without diagnostic and has cleared the
    identifier, the rest of the resource data being as it was. *)
Theorem volume_attachment_read_invariant
    (e : Env R) (resp : option civogo.Volume.t) (err : option error) (remote' : R) :
  api_FindVolume api (client_region e) (Get "volume_id" (d e)) (remote e)
  = (resp, err, remote') →
  (∀ diags e',
     resourceVolumeAttachmentRead api e = Returned diags e' →
     diag.HasError diags = false →
     Id (d e') ≠ "" →
     ∃ v,
       resp = Some v ∧ err = None
       ∧ civogo.Volume.InstanceID v = Get "instance_id" (d e)
       ∧ Id (d e') = Id (d e))
  ∧ (∀ v,
       resp = Some v → err = None →
       civogo.Volume.InstanceID v = ""
       ∨ civogo.Volume.InstanceID v ≠ Get "instance_id" (d e) →
       ∃ e',
         resourceVolumeAttachmentRead api e = Returned [] e'
         ∧ d e' = SetId "" (d e)
         ∧ Id (d e') = "").
Proof.
  intros Hlookup.
  unfold resourceVolumeAttachmentRead, FindVolume. run_handler.
  rewrite Hlookup.
  destruct err as [err|]; [destruct resp as [v|]|destruct resp as [v|]];
    run_handler.
  - split; [|done]. by intros diags e' [= <- <-] [=].
  - split; [|done]. by intros diags e' [= <- <-] _.
  - destruct (bool_decide (civogo.Volume.InstanceID v = "")) eqn:Hempty;
      destruct (bool_decide (civogo.Volume.InstanceID v ≠ Get "instance_id" (d e)))
        eqn:Hother; cbn [orb]; run_handler;
      try (split;
           [ by intros diags e' [= <- <-] _
           | intros v' [= <-] _ _; by eexists ]).
    apply bool_decide_eq_false in Hempty, Hother.
    apply dec_stable in Hother.
    split.
    + intros diags e' [= <- <-] _ _. by exists v.
    + intros v' [= <-] _ [?|?]; done.
  - split; [done|]. by intros v' [=].
Qed.

(** What [resourceFirewallRuleRead] does with a rule it found. *)
Lemma resourceFirewallRuleRead_found (e : Env R) r remote' :
  api_FindFirewallRule api (client_region e)
    (Get "firewall_id" (d e)) (Id (d e)) (remote e) = (Some r, None, remote') →
  resourceFirewallRuleRead api e
  = Returned []
      (mkEnv
         (Set_ "label" (civogo.FirewallRule.Label r)
            (Set_ "action" (civogo.FirewallRule.Action r)
               (Set_ "direction" (civogo.FirewallRule.Direction r)
                  (SetList "cidr" (civogo.FirewallRule.Cidr r)
                     ((if bool_decide (civogo.FirewallRule.EndPort r ≠ "")
                       then Set_ "end_port" (civogo.FirewallRule.EndPort r)
                       else λ x, x)
                        (Set_ "start_port" (civogo.FirewallRule.StartPort r)
                           (Set_ "protocol" (civogo.FirewallRule.Protocol r)
                              (Set_ "firewall_id"
                                 (civogo.FirewallRule.FirewallID r) (d e)))))))))
         (client_region e) remote'
         (calls e ++ [CallFindFirewallRule (Get "firewall_id" (d e)) (Id (d e))])
         (idCounter e)).
Proof.
  intros Hfound. unfold resourceFirewallRuleRead, FindFirewallRule.
  run_handler. rewrite Hfound. run_handler.
  by destruct (bool_decide (civogo.FirewallRule.EndPort r ≠ "")); run_handler.
Qed.

(** C10. When the rule found by a firewall rule read has an empty end
    port, the stored [end_port] is left as it was (a non-empty end port
    overwrites it); [firewall_id], [protocol], [start_port], [cidr],
    [direction], [action] and [label] are always overwritten with the
    values of the remote rule. *)
Theorem rule_read_keeps_end_port_when_empty
    (e : Env R) (r : civogo.FirewallRule.t) (remote' : R) :
  api_FindFirewallRule api (client_region e)
    (Get "firewall_id" (d e)) (Id (d e)) (remote e) = (Some r, None, remote') →
  ∃ e',
    resourceFirewallRuleRead api e = Returned [] e'
    ∧ Get "firewall_id" (d e') = civogo.FirewallRule.FirewallID r
    ∧ Get "protocol" (d e') = civogo.FirewallRule.Protocol r
    ∧ Get "start_port" (d e') = civogo.FirewallRule.StartPort r
    ∧ GetSet "cidr" (d e') = list_to_set (civogo.FirewallRule.Cidr r)
    ∧ Get "direction" (d e') = civogo.FirewallRule.Direction r
    ∧ Get "action" (d e') = civogo.FirewallRule.Action r
    ∧ Get "label" (d e') = civogo.FirewallRule.Label r
    ∧ Get "end_port" (d e')
      = (if bool_decide (civogo.FirewallRule.EndPort r = "")
         then Get "end_port" (d e)
         else civogo.FirewallRule.EndPort r)
    ∧ (if bool_decide (civogo.FirewallRule.EndPort r = "")
       then strs (rd_set (d e')) !! "end_port" = strs (rd_set (d e)) !! "end_port"
       else strs (rd_set (d e')) !! "end_port" = Some (civogo.FirewallRule.EndPort r)).
Proof.
  intros Hfound. eexists. split; [by apply resourceFirewallRuleRead_found|].
  cbn [d].
  destruct (decide (civogo.FirewallRule.EndPort r = "")) as [Hend|Hend].
  - rewrite (bool_decide_eq_false_2 (_ ≠ _)) by (by intros ?).
    rewrite (bool_decide_eq_true_2 (_ = _)) by done.
    repeat split;
      read_back; try done.
    rewrite !written_Set_ne by done. rewrite written_SetList.
    by rewrite !written_Set_ne by done.
  - rewrite (bool_decide_eq_true_2 (_ ≠ _)) by done.
    rewrite (bool_decide_eq_false_2 (_ = _)) by done.
    repeat split;
      read_back; try done.
    rewrite !written_Set_ne by done. rewrite written_SetList.
    apply written_Set_eq.
Qed.

(** The import, case by case on the parse and on the lookup. *)
Lemma resourceFirewallRuleImport_run (e : Env R) firewallID ruleID perr resp lerr remote' :
  ResourceCommonParseID (Id (d e)) = (firewallID, ruleID, perr) →
  api_FindFirewallRule api (client_region e) firewallID ruleID (remote e)
  = (resp, lerr, remote') →
  resourceFirewallRuleImport api ResourceCommonParseID e
  = match perr with
    | Some err => Returned ([], Some err) (after_calls e [] (remote e))
    | None =>
        let e1 := after_calls e [CallFindFirewallRule firewallID ruleID] remote' in
        match resp, lerr with
        | Some _, Some err => Returned ([], Some err) e1
        | Some r, None =>
            Returned ([imported r (d e)], None)
              (mkEnv (imported r (d e)) (Region e1) (remote e1) (calls e1)
                 (idCounter e1))
        | None, _ => Panicked e1
        end
    end.
Proof.
  intros Hparse Hlookup. unfold resourceFirewallRuleImport, FindFirewallRule.
  run_handler. rewrite Hparse. unfold after_calls.
  destruct perr as [err|]; [by rewrite app_nil_r|].
  run_handler. rewrite Hlookup.
  destruct lerr, resp; run_handler; done.
Qed.

(** C6. The import parses the identifier into two components, a firewall
    ID and a rule ID.  When the parse fails, the import returns that error
    and no resource data, having written nothing and called nothing.  When
    the parse and the lookup of these two IDs succeed, the returned
    resource data has the identifier of the remote rule and the remote
    rule's [firewall_id], [protocol], [start_port], [end_port], [cidr],
    [direction], [action] and [label]. *)
Theorem import_parses_and_populates
    (e : Env R) (firewallID ruleID : string) (perr : option error) :
  ResourceCommonParseID (Id (d e)) = (firewallID, ruleID, perr) →
  match perr with
  | Some err =>
      ∃ e',
        resourceFirewallRuleImport api ResourceCommonParseID e
        = Returned ([], Some err) e'
        ∧ d e' = d e ∧ calls e' = calls e
  | None =>
      ∀ r remote',
        api_FindFirewallRule api (client_region e) firewallID ruleID (remote e)
        = (Some r, None, remote') →
        ∃ e',
          resourceFirewallRuleImport api ResourceCommonParseID e
          = Returned ([d e'], None) e'
          ∧ calls e' = calls e ++ [CallFindFirewallRule firewallID ruleID]
          ∧ Id (d e') = civogo.FirewallRule.ID r
          ∧ Get "firewall_id" (d e') = civogo.FirewallRule.FirewallID r
          ∧ Get "protocol" (d e') = civogo.FirewallRule.Protocol r
          ∧ Get "start_port" (d e') = civogo.FirewallRule.StartPort r
          ∧ Get "end_port" (d e') = civogo.FirewallRule.EndPort r
          ∧ GetSet "cidr" (d e') = list_to_set (civogo.FirewallRule.Cidr r)
          ∧ Get "direction" (d e') = civogo.FirewallRule.Direction r
          ∧ Get "action" (d e') = civogo.FirewallRule.Action r
          ∧ Get "label" (d e') = civogo.FirewallRule.Label r
  end.
Proof.
  intros Hparse. destruct perr as [err|].
  - destruct (api_FindFirewallRule api (client_region e) firewallID ruleID (remote e))
      as [[resp lerr] remote'] eqn:Hlookup.
    rewrite (resourceFirewallRuleImport_run _ _ _ _ _ _ _ Hparse Hlookup).
    eexists. split; [done|]. split; [done|]. cbn [after_calls calls].
    by rewrite app_nil_r.
  - intros r remote' Hlookup.
    rewrite (resourceFirewallRuleImport_run _ _ _ _ _ _ _ Hparse Hlookup).
    cbv zeta.
    match goal with |- ∃ _, Returned _ ?E = _ ∧ _ => exists E end.
    split; [done|]. cbn [d calls after_calls]. split; [done|]. unfold imported.
    repeat split;
      read_back; done.
Qed.

(** C9. In the import, a lookup that fails with a nil response is not
    returned from: the import goes on to read the fields of the nil
    response and panics, before writing anything.  A failed lookup that
    comes with a response is returned as the import's error. *)
Theorem import_failed_lookup
    (e : Env R) (firewallID ruleID : string)
    (resp : option civogo.FirewallRule.t) (lerr : error) (remote' : R) :
  ResourceCommonParseID (Id (d e)) = (firewallID, ruleID, None) →
  api_FindFirewallRule api (client_region e) firewallID ruleID (remote e)
  = (resp, Some lerr, remote') →
  match resp with
  | None =>
      ∃ e',
        resourceFirewallRuleImport api ResourceCommonParseID e = Panicked e'
        ∧ d e' = d e
  | Some _ =>
      ∃ e',
        resourceFirewallRuleImport api ResourceCommonParseID e
        = Returned ([], Some lerr) e'
        ∧ d e' = d e
  end.
Proof.
  intros Hparse Hlookup.
  rewrite (resourceFirewallRuleImport_run _ _ _ _ _ _ _ Hparse Hlookup).
  destruct resp; by eexists.
Qed.

Lemma client_region_after (e : Env R) rd region (remote' : R) cs n :
  GetOk "region" rd = GetOk "region" (d e) →
  region = client_region e →
  client_region (mkEnv rd region remote' cs n) = client_region e.
Proof.
  intros Hd ->. unfold client_region at 1. cbn [d Region]. rewrite Hd.
  unfold client_region. by destruct (GetOk "region" (d e)) as [? [|]].
Qed.

(** The firewall read issues no rename call. *)
Lemma resourceFirewallRead_renames (e : Env R) :
  rename_calls (resourceFirewallRead api e) = filter is_rename (calls e).
Proof.
  unfold rename_calls, resourceFirewallRead, FindFirewall. run_handler.
  destruct (api_FindFirewall _ _ _ _) as [[resp err] remote'].
  destruct err, resp; run_handler; cbn [outcome_env calls];
    by rewrite filter_app, app_nil_r.
Qed.

(** A read started after the region was overwritten is the read itself. *)
Lemma resourceFirewallRead_region (e : Env R) :
  resourceFirewallRead api
    (mkEnv (d e) (client_region e) (remote e) (calls e) (idCounter e))
  = resourceFirewallRead api e.
Proof.
  unfold resourceFirewallRead.
  rewrite !bind_overwriteRegion. cbn [d Region remote calls idCounter].
  by rewrite (client_region_after e) by done.
Qed.

(** C4. The firewall update issues a rename call, for the resource's
    identifier and with the new name, exactly when the name has changed and
    the new name is not empty; otherwise it issues no rename call and is the
    read refresh. *)
Theorem firewall_update_renames_iff_changed (e : Env R) :
  if HasChange "name" (d e) && bool_decide (Get "name" (d e) ≠ "")
  then rename_calls (resourceFirewallUpdate api e)
       = filter is_rename (calls e)
         ++ [CallRenameFirewall (Id (d e))
               {| civogo.FirewallConfig.Name := Get "name" (d e) |}]
  else resourceFirewallUpdate api e = resourceFirewallRead api e
       ∧ rename_calls (resourceFirewallUpdate api e) = filter is_rename (calls e).
Proof.
  unfold resourceFirewallUpdate. run_handler.
  destruct (HasChange "name" (d e) && bool_decide (Get "name" (d e) ≠ "")).
  - unfold RenameFirewall. run_handler.
    destruct (api_RenameFirewall _ _ _ _ _) as [[resp err] remote'].
    destruct err as [err|]; run_handler.
    + unfold rename_calls. cbn [outcome_env calls].
      by rewrite filter_app.
    + rewrite resourceFirewallRead_renames. cbn [calls].
      by rewrite filter_app.
  - rewrite resourceFirewallRead_region. split; [done|].
    apply resourceFirewallRead_renames.
Qed.

(** C1, as the handlers have it.  The firewall delete looks the firewall up
    first: when that lookup fails it reports nothing and deletes nothing,
    and otherwise it issues the delete call and reports its failure.  The
    firewall rule delete and the volume attachment delete make no such
    check: each issues its delete (detach) call at once and reports an error
    exactly when that call fails. *)
Theorem delete_policy (e : Env R) :
  (let '(_, ferr, remote1) :=
     api_FindFirewall api (client_region e) (Id (d e)) (remote e) in
   match ferr with
   | Some _ =>
       resourceFirewallDelete api e
       = Returned [] (after_calls e [CallFindFirewall (Id (d e))] remote1)
   | None =>
       let '(_, derr, remote2) :=
         api_DeleteFirewall api (client_region e) (Id (d e)) remote1 in
       ∃ diags,
         resourceFirewallDelete api e
         = Returned diags
             (after_calls e
                [CallFindFirewall (Id (d e)); CallDeleteFirewall (Id (d e))]
                remote2)
         ∧ reports derr diags
   end)
  ∧ (let '(_, derr, remote1) :=
       api_DeleteFirewallRule api (client_region e)
         (Get "firewall_id" (d e)) (Id (d e)) (remote e) in
     ∃ diags,
       resourceFirewallRuleDelete api e
       = Returned diags
           (after_calls e
              [CallDeleteFirewallRule (Get "firewall_id" (d e)) (Id (d e))]
              remote1)
       ∧ reports derr diags)
  ∧ (let '(_, derr, remote1) :=
       api_DetachVolume api (client_region e) (Get "volume_id" (d e)) (remote e) in
     ∃ diags,
       resourceVolumeAttachmentDelete api e
       = Returned diags
           (after_calls e [CallDetachVolume (Get "volume_id" (d e))] remote1)
       ∧ reports derr diags).
Proof.
  split; [|split].
  - unfold resourceFirewallDelete, FindFirewall. run_handler.
    destruct (api_FindFirewall _ _ _ _) as [[resp ferr] remote1].
    destruct ferr as [ferr|]; [done|].
    unfold DeleteFirewall. run_handler.
    destruct (api_DeleteFirewall _ _ _ _) as [[resp' derr] remote2].
    unfold after_calls. rewrite <- app_assoc.
    destruct derr; by eexists.
  - unfold resourceFirewallRuleDelete, DeleteFirewallRule. run_handler.
    destruct (api_DeleteFirewallRule _ _ _ _ _) as [[resp derr] remote1].
    destruct derr; by eexists.
  - unfold resourceVolumeAttachmentDelete, DetachVolume. run_handler.
    destruct (api_DetachVolume _ _ _ _) as [[resp derr] remote1].
    destruct derr; by eexists.
Qed.

(** The volume attachment read issues no attach call. *)
Lemma resourceVolumeAttachmentRead_attaches (e : Env R) :
  attach_calls (resourceVolumeAttachmentRead api e) = filter is_attach (calls e).
Proof.
  unfold attach_calls, resourceVolumeAttachmentRead, FindVolume. run_handler.
  destruct (api_FindVolume _ _ _ _) as [[resp err] remote'].
  destruct err, resp; run_handler; cbn [outcome_env calls];
    try by rewrite filter_app, app_nil_r.
  destruct (_ || _); run_handler; cbn [outcome_env calls];
    by rewrite filter_app, app_nil_r.
Qed.

(** The volume attachment read keeps the identifier or clears it, and
    touches nothing else of the resource data. *)
Lemma resourceVolumeAttachmentRead_Id (e e' : Env R) diags :
  resourceVolumeAttachmentRead api e = Returned diags e' →
  d e' = d e ∨ d e' = SetId "" (d e).
Proof.
  unfold resourceVolumeAttachmentRead, FindVolume. run_handler.
  destruct (api_FindVolume _ _ _ _) as [[resp err] remote'].
  destruct err, resp; run_handler; try done;
    try (intros [= <- <-]; by eauto).
  destruct (_ || _); run_handler; intros [= <- <-]; by eauto.
Qed.

(** The volume attachment create, once the volume is found. *)
Lemma resourceVolumeAttachmentCreate_found (e : Env R) v remote1 :
  api_FindVolume api (client_region e) (Get "volume_id" (d e)) (remote e)
  = (Some v, None, remote1) →
  resourceVolumeAttachmentCreate api UniqueIdSuffix e
  = let instanceID := Get "instance_id" (d e) in
    let volumeID := Get "volume_id" (d e) in
    if bool_decide (civogo.Volume.InstanceID v = "")
       || bool_decide (civogo.Volume.InstanceID v ≠ instanceID)
    then
      let '(_, aerr, remote2) :=
        api_AttachVolume api (client_region e) volumeID instanceID remote1 in
      let cs := [CallFindVolume volumeID; CallAttachVolume volumeID instanceID] in
      match aerr with
      | Some err =>
          Returned (diag.Errorf ("[ERR] error attaching volume to instance " +:+ err))
            (after_calls e cs remote2)
      | None =>
          resourceVolumeAttachmentRead api (created UniqueIdSuffix e cs remote2)
      end
    else
      resourceVolumeAttachmentRead api
        (created UniqueIdSuffix e [CallFindVolume volumeID] remote1).
Proof.
  intros Hfound.
  unfold resourceVolumeAttachmentCreate, FindVolume. run_handler.
  rewrite Hfound. run_handler. cbv zeta.
  destruct (_ || _).
  - unfold AttachVolume. run_handler.
    destruct (api_AttachVolume _ _ _ _ _) as [[resp aerr] remote2].
    unfold after_calls, created. rewrite <- !app_assoc.
    destruct aerr; run_handler; done.
  - run_handler. done.
Qed.

(** C3. Once the create has found the volume: the attach call, for this
    volume and this instance, is issued exactly when the volume's instance
    pointer is empty or differs from the requested [instance_id].  When the
    volume reports an attachment (a non-empty pointer) to the requested
    instance, no attach call is issued, and the create still sets the
    identifier, a non-empty string, before it hands over to the read. *)
Theorem create_attaches_unless_attached
    (e : Env R) (v : civogo.Volume.t) (remote1 : R) :
  api_FindVolume api (client_region e) (Get "volume_id" (d e)) (remote e)
  = (Some v, None, remote1) →
  let instanceID := Get "instance_id" (d e) in
  let volumeID := Get "volume_id" (d e) in
  let o := resourceVolumeAttachmentCreate api UniqueIdSuffix e in
  attach_calls o
  = filter is_attach (calls e)
    ++ (if bool_decide (civogo.Volume.InstanceID v = "")
           || bool_decide (civogo.Volume.InstanceID v ≠ instanceID)
        then [CallAttachVolume volumeID instanceID]
        else [])
  ∧ (civogo.Volume.InstanceID v ≠ "" →
     civogo.Volume.InstanceID v = instanceID →
     attach_calls o = filter is_attach (calls e)
     ∧ ∃ e1,
         o = resourceVolumeAttachmentRead api e1
         ∧ Id (d e1) = (instanceID +:+ "-" +:+ volumeID +:+ "-")
                       +:+ UniqueIdSuffix (S (idCounter e))
         ∧ Id (d e1) ≠ "").
Proof.
  intros Hfound instanceID volumeID o.
  assert (attach_calls o
          = filter is_attach (calls e)
            ++ (if bool_decide (civogo.Volume.InstanceID v = "")
                   || bool_decide (civogo.Volume.InstanceID v ≠ instanceID)
                then [CallAttachVolume volumeID instanceID]
                else [])) as Hcalls.
  { subst o. rewrite (resourceVolumeAttachmentCreate_found _ _ _ Hfound).
    cbv zeta. fold instanceID volumeID.
    destruct (_ || _).
    - destruct (api_AttachVolume _ _ _ _ _) as [[resp aerr] remote2].
      destruct aerr as [err|].
      + unfold attach_calls. cbn [outcome_env after_calls calls].
        by rewrite filter_app.
      + rewrite resourceVolumeAttachmentRead_attaches.
        cbn [created calls]. by rewrite filter_app.
    - rewrite resourceVolumeAttachmentRead_attaches.
      cbn [created calls]. by rewrite filter_app. }
  split; [done|].
  intros Hnonempty Hsame.
  assert (bool_decide (civogo.Volume.InstanceID v = "")
          || bool_decide (civogo.Volume.InstanceID v ≠ instanceID) = false)
    as Hcond.
  { rewrite bool_decide_eq_false_2 by done.
    by rewrite bool_decide_eq_false_2 by (by intros ?). }
  split.
  - by rewrite Hcalls, Hcond, app_nil_r.
  - subst o. rewrite (resourceVolumeAttachmentCreate_found _ _ _ Hfound).
    cbv zeta. fold instanceID volumeID. rewrite Hcond.
    eexists. split; [done|]. cbn [created d Id SetId rd_Id].
    split; [done|]. apply prefixed_nonempty.
Qed.

(** C8. A volume attachment create that reports no error has set the
    identifier to a string it made itself: the prefix built from
    [instance_id] and [volume_id], in this order, followed by the unique
    suffix of the next counter value.  No answer of the remote side enters
    it.  The read refresh that ends the create runs with this identifier and
    either keeps it or clears it, so that the resource data the create leaves
    is the initial one with this identifier, or with none. *)
Theorem create_identifier_is_synthesized
    (e e' : Env R) (diags : diag.Diagnostics) :
  resourceVolumeAttachmentCreate api UniqueIdSuffix e = Returned diags e' →
  diag.HasError diags = false →
  let uid :=
    (Get "instance_id" (d e) +:+ "-" +:+ Get "volume_id" (d e) +:+ "-")
    +:+ UniqueIdSuffix (S (idCounter e)) in
  (∃ e1,
     resourceVolumeAttachmentCreate api UniqueIdSuffix e
     = resourceVolumeAttachmentRead api e1
     ∧ d e1 = SetId uid (d e))
  ∧ (d e' = SetId uid (d e) ∨ d e' = SetId "" (d e))
  ∧ uid ≠ "".
Proof.
  intros Hrun Hok uid.
  assert (∃ e1,
            resourceVolumeAttachmentCreate api UniqueIdSuffix e
            = resourceVolumeAttachmentRead api e1
            ∧ d e1 = SetId uid (d e)) as (e1 & Hcreate & Hd1).
  { destruct (api_FindVolume api (client_region e) (Get "volume_id" (d e)) (remote e))
      as [[volume err] remote1] eqn:Hfind.
    destruct err as [err|]; [|destruct volume as [v|]].
    - revert Hrun. unfold resourceVolumeAttachmentCreate, FindVolume.
      run_handler. rewrite Hfind. intros [= <- <-]. done.
    - rewrite (resourceVolumeAttachmentCreate_found _ _ _ Hfind) in Hrun |- *.
      cbv zeta in Hrun |- *.
      destruct (_ || _).
      + destruct (api_AttachVolume _ _ _ _ _) as [[resp aerr] remote2].
        destruct aerr as [aerr|]; [by injection Hrun as <- <-|].
        by eexists.
      + by eexists.
    - revert Hrun. unfold resourceVolumeAttachmentCreate, FindVolume.
      run_handler. by rewrite Hfind. }
  split; [by exists e1|]. split; [|apply prefixed_nonempty].
  rewrite Hcreate in Hrun.
  apply resourceVolumeAttachmentRead_Id in Hrun as [->| ->]; rewrite Hd1; auto.
Qed.

(** C5. The firewall rule resource declares exactly the nine attributes
    [firewall_id], [protocol], [start_port], [end_port], [cidr],
    [direction], [action], [label] and [region]; every one of them is
    [ForceNew]; and the resource registers no update function. *)
Theorem firewall_rule_is_immutable :
  dom (schema.Schema_ (resourceFirewallRule api ResourceCommonParseID ListOfSet))
  = {[ "firewall_id"; "protocol"; "start_port"; "end_port"; "cidr";
       "direction"; "action"; "label"; "region" ]}
  ∧ map_Forall (λ _ s, schema.ForceNew s = true)
      (schema.Schema_ (resourceFirewallRule api ResourceCommonParseID ListOfSet))
  ∧ schema.UpdateContext (resourceFirewallRule api ResourceCommonParseID ListOfSet)
    = None.
Proof.
  cbn [schema.Schema_ schema.UpdateContext resourceFirewallRule].
  split; [|split; [|done]].
  - rewrite !dom_list_to_map_L. cbn [fst fmap list_fmap]. set_solver.
  - apply map_Forall_to_list. vm_compute. repeat constructor.
Qed.

(** * Further properties of the handlers *)

(** X1. A read panics exactly when its lookup answers neither an error nor a
    response: the handler then reads a field of the nil response. *)
Theorem read_panics_iff_nil_without_error (k : Kind) (e : Env R) :
  (∃ e', readContext api k e = Panicked e') ↔ read_lookup api k e = (false, None).
Proof.
  destruct k; unfold read_lookup, readContext.
  - unfold resourceFirewallRead, FindFirewall. run_handler.
    destruct (api_FindFirewall _ _ _ _) as [[resp err] remote'].
    destruct err, resp; run_handler;
      (split; [by intros [? [=]] | intros [=]; try by eexists]);
      by match goal with H : bool_decide _ = false |- _ =>
           apply bool_decide_eq_false in H; destruct H; eexists end.
  - unfold resourceFirewallRuleRead, FindFirewallRule. run_handler.
    destruct (api_FindFirewallRule _ _ _ _ _) as [[resp err] remote'].
    destruct err, resp; run_handler;
      try destruct (bool_decide (civogo.FirewallRule.EndPort _ ≠ ""));
      run_handler;
      (split; [by intros [? [=]] | intros [=]; try by eexists]);
      by match goal with H : bool_decide _ = false |- _ =>
           apply bool_decide_eq_false in H; destruct H; eexists end.
  - unfold resourceVolumeAttachmentRead, FindVolume. run_handler.
    destruct (api_FindVolume _ _ _ _) as [[resp err] remote'].
    destruct err, resp; run_handler;
      try destruct (_ || _); run_handler;
      (split; [by intros [? [=]] | intros [=]; try by eexists]);
      by match goal with H : bool_decide _ = false |- _ =>
           apply bool_decide_eq_false in H; destruct H; eexists end.
Qed.

(** X2. Whatever its outcome, a read issues one call and no more: the lookup
    of its own resource, with the identifiers the resource data holds. *)
Theorem read_issues_only_its_lookup (k : Kind) (e : Env R) :
  calls (outcome_env (readContext api k e)) = calls e ++ [lookup_call k (d e)].
Proof.
  destruct k; unfold readContext, lookup_call.
  - unfold resourceFirewallRead, FindFirewall. run_handler.
    destruct (api_FindFirewall _ _ _ _) as [[resp err] remote'].
    by destruct err, resp; run_handler.
  - unfold resourceFirewallRuleRead, FindFirewallRule. run_handler.
    destruct (api_FindFirewallRule _ _ _ _ _) as [[resp err] remote'].
    destruct err, resp; run_handler; try done.
    by destruct (bool_decide _); run_handler.
  - unfold resourceVolumeAttachmentRead, FindVolume. run_handler.
    destruct (api_FindVolume _ _ _ _) as [[resp err] remote'].
    destruct err, resp; run_handler; try done.
    by destruct (_ || _); run_handler.
Qed.

(** Writing what is already written changes nothing. *)
Lemma Set_absorb key value rd :
  strs (rd_set rd) !! key = Some value → Set_ key value rd = rd.
Proof.
  destruct rd as [i st df [ws wb wl]]. unfold Set_; simpl. intros Hw.
  by rewrite insert_id.
Qed.

Lemma SetList_absorb key value rd :
  sets (rd_set rd) !! key = Some (list_to_set value) → SetList key value rd = rd.
Proof.
  destruct rd as [i st df [ws wb wl]]. unfold SetList; simpl. intros Hw.
  by rewrite insert_id.
Qed.

Lemma written_sets_Set key key' value rd :
  sets (rd_set (Set_ key' value rd)) !! key = sets (rd_set rd) !! key.
Proof. done. Qed.

Lemma written_sets_SetList_eq key value rd :
  sets (rd_set (SetList key value rd)) !! key = Some (list_to_set value).
Proof. unfold SetList; simpl. by rewrite lookup_insert_eq. Qed.

(** Looks an attribute up in the written level, through the writes above. *)
Ltac written :=
  repeat first [ rewrite written_Set_eq | rewrite written_Set_ne by done
               | rewrite written_SetList | rewrite written_sets_Set
               | rewrite written_sets_SetList_eq ].

(** X3. A firewall read that finds the firewall writes its name and its network
    and nothing else: the identifier, the prior state, the planned values
    and every other attribute read as before. *)
Theorem firewall_read_writes_name_and_network
    (e : Env R) (fw : civogo.Firewall.t) (remote' : R) :
  api_FindFirewall api (client_region e) (Id (d e)) (remote e)
  = (Some fw, None, remote') →
  ∃ e',
    resourceFirewallRead api e = Returned [] e'
    ∧ Get "name" (d e') = civogo.Firewall.Name fw
    ∧ Get "network_id" (d e') = civogo.Firewall.NetworkID fw
    ∧ Id (d e') = Id (d e)
    ∧ rd_state (d e') = rd_state (d e)
    ∧ rd_diff (d e') = rd_diff (d e)
    ∧ (∀ key, key ≠ "name" → key ≠ "network_id" →
         Get key (d e') = Get key (d e))
    ∧ (∀ key, GetBool key (d e') = GetBool key (d e))
    ∧ (∀ key, GetSet key (d e') = GetSet key (d e)).
Proof.
  intros Hfound. unfold resourceFirewallRead, FindFirewall.
  run_handler. rewrite Hfound. run_handler.
  eexists. split; [done|]. cbn [d].
  repeat split; try (by read_back).
  intros key Hname Hnet. by rewrite !Get_Set_ne.
Qed.

(** X4. A firewall rule read that finds the rule leaves alone everything but
    the eight attributes it copies: the identifier, the prior state, the
    planned values and every other string attribute ([region] among them)
    read as before, and so does every set attribute but [cidr]. *)
Theorem rule_read_frame
    (e : Env R) (r : civogo.FirewallRule.t) (remote' : R) :
  api_FindFirewallRule api (client_region e)
    (Get "firewall_id" (d e)) (Id (d e)) (remote e) = (Some r, None, remote') →
  ∃ e',
    resourceFirewallRuleRead api e = Returned [] e'
    ∧ Id (d e') = Id (d e)
    ∧ rd_state (d e') = rd_state (d e)
    ∧ rd_diff (d e') = rd_diff (d e)
    ∧ (∀ key, key ∉ rule_read_keys → Get key (d e') = Get key (d e))
    ∧ Get "region" (d e') = Get "region" (d e)
    ∧ (∀ key, key ≠ "cidr" → GetSet key (d e') = GetSet key (d e))
    ∧ calls e' = calls e ++ [CallFindFirewallRule (Get "firewall_id" (d e)) (Id (d e))].
Proof.
  intros Hfound. eexists. split; [by apply resourceFirewallRuleRead_found|].
  cbn [d calls].
  assert (∀ key, key ∉ rule_read_keys →
            Get key
              (Set_ "label" (civogo.FirewallRule.Label r)
                 (Set_ "action" (civogo.FirewallRule.Action r)
                    (Set_ "direction" (civogo.FirewallRule.Direction r)
                       (SetList "cidr" (civogo.FirewallRule.Cidr r)
                          ((if bool_decide (civogo.FirewallRule.EndPort r ≠ "")
                            then Set_ "end_port" (civogo.FirewallRule.EndPort r)
                            else λ x, x)
                             (Set_ "start_port" (civogo.FirewallRule.StartPort r)
                                (Set_ "protocol" (civogo.FirewallRule.Protocol r)
                                   (Set_ "firewall_id"
                                      (civogo.FirewallRule.FirewallID r) (d e)))))))))
            = Get key (d e)) as Hframe.
  { intros key Hkey. unfold rule_read_keys in Hkey.
    rewrite !not_elem_of_cons in Hkey.
    destruct Hkey as (? & ? & ? & ? & ? & ? & ? & ? & _).
    rewrite !Get_Set_ne by done. rewrite Get_SetList.
    destruct (bool_decide _); by rewrite ?Get_Set_ne by done. }
  split; [by destruct (bool_decide _)|].
  split; [by destruct (bool_decide _)|].
  split; [by destruct (bool_decide _)|].
  split; [done|].
  split.
  { apply Hframe. unfold rule_read_keys. rewrite !not_elem_of_cons.
    repeat split; first [done | apply not_elem_of_nil]. }
  split; [|done].
  intros key Hkey. rewrite !GetSet_Set. unfold GetSet, SetList. cbn [rd_set sets rd_diff].
  rewrite lookup_insert_ne by done.
  by destruct (bool_decide _).
Qed.

(** X5. A second firewall rule read that finds the same rule changes nothing:
    the resource data after two reads is the one after the first. *)
Theorem rule_read_is_idempotent
    (e : Env R) (r : civogo.FirewallRule.t) (remote1 remote2 : R) :
  api_FindFirewallRule api (client_region e)
    (Get "firewall_id" (d e)) (Id (d e)) (remote e) = (Some r, None, remote1) →
  api_FindFirewallRule api (client_region e)
    (civogo.FirewallRule.FirewallID r) (Id (d e)) remote1
  = (Some r, None, remote2) →
  ∃ e1 e2,
    resourceFirewallRuleRead api e = Returned [] e1
    ∧ resourceFirewallRuleRead api e1 = Returned [] e2
    ∧ d e2 = d e1.
Proof.
  intros Hfirst Hsecond.
  rewrite (resourceFirewallRuleRead_found _ _ _ Hfirst).
  eexists _, _. split; [done|].
  match goal with |- resourceFirewallRuleRead api ?E = _ ∧ _ => set (e1 := E) end.
  assert (api_FindFirewallRule api (client_region e1)
            (Get "firewall_id" (d e1)) (Id (d e1)) (remote e1)
          = (Some r, None, remote2)) as Hagain.
  { subst e1. cbn [d remote].
    rewrite (client_region_after e); [| |done].
    - replace (Get "firewall_id" _) with (civogo.FirewallRule.FirewallID r).
      + by destruct (bool_decide _).
      + destruct (bool_decide _); by read_back.
    - unfold GetOk. f_equal; [|f_equal; f_equal];
        destruct (bool_decide (civogo.FirewallRule.EndPort r ≠ ""));
        by read_back. }
  rewrite (resourceFirewallRuleRead_found _ _ _ Hagain).
  split; [done|]. subst e1. cbn [d].
  destruct (bool_decide (civogo.FirewallRule.EndPort r ≠ ""));
    repeat first
      [ rewrite Set_absorb by (by written)
      | rewrite SetList_absorb by (by written) ]; done.
Qed.

(** X6. A read of a rule right after its import, finding the same rule under
    the imported firewall and rule identifiers, changes nothing. *)
Theorem import_then_read_is_stable
    (e : Env R) (firewallID ruleID : string) (r : civogo.FirewallRule.t)
    (remote1 remote2 : R) :
  ResourceCommonParseID (Id (d e)) = (firewallID, ruleID, None) →
  api_FindFirewallRule api (client_region e) firewallID ruleID (remote e)
  = (Some r, None, remote1) →
  api_FindFirewallRule api (client_region e)
    (civogo.FirewallRule.FirewallID r) (civogo.FirewallRule.ID r) remote1
  = (Some r, None, remote2) →
  ∃ e1 e2,
    resourceFirewallRuleImport api ResourceCommonParseID e
    = Returned ([d e1], None) e1
    ∧ resourceFirewallRuleRead api e1 = Returned [] e2
    ∧ d e2 = d e1.
Proof.
  intros Hparse Hfirst Hsecond.
  rewrite (resourceFirewallRuleImport_run _ _ _ _ _ _ _ Hparse Hfirst).
  cbv zeta.
  match goal with |- ∃ _ _, Returned _ ?E = _ ∧ _ => exists E; set (e1 := E) end.
  assert (api_FindFirewallRule api (client_region e1)
            (Get "firewall_id" (d e1)) (Id (d e1)) (remote e1)
          = (Some r, None, remote2)) as Hagain.
  { subst e1. cbn [d remote Region calls idCounter after_calls].
    rewrite (client_region_after e); [| |done].
    - replace (Get "firewall_id" _) with (civogo.FirewallRule.FirewallID r);
        [done|]. unfold imported. by read_back.
    - unfold GetOk, imported. by read_back. }
  eexists. split; [done|].
  rewrite (resourceFirewallRuleRead_found _ _ _ Hagain).
  split; [done|]. subst e1. cbn [d]. unfold imported.
  destruct (bool_decide (civogo.FirewallRule.EndPort r ≠ ""));
    repeat first
      [ rewrite Set_absorb by (by written)
      | rewrite SetList_absorb by (by written) ]; done.
Qed.

(** What [d.GetOk] guards is what [d.Get] returns: an attribute that is not
    set reads as the empty string. *)
Lemma GetOk_guard key rd :
  (let '(v, ok) := GetOk key rd in if ok : bool then v else "") = Get key rd.
Proof.
  unfold GetOk. case_bool_decide as Hv; [done|].
  by rewrite Hv.
Qed.

(** The firewall rule create, up to the answer to its remote call. *)
Lemma resourceFirewallRuleCreate_run (e : Env R) rule err remote1 :
  api_NewFirewallRule api (client_region e) (rule_config_of ListOfSet (d e)) (remote e)
  = (rule, err, remote1) →
  resourceFirewallRuleCreate api ListOfSet e
  = let e1 := after_calls e [CallNewFirewallRule (rule_config_of ListOfSet (d e))] remote1 in
    match err, rule with
    | Some err, _ =>
        Returned
          (diag.Errorf ("[ERR] failed to create a new firewall rule: " +:+ err)) e1
    | None, None => Panicked e1
    | None, Some rule =>
        resourceFirewallRuleRead api
          (mkEnv (SetId (civogo.FirewallRule.ID rule) (d e))
             (Region e1) (remote e1) (calls e1) (idCounter e1))
    end.
Proof.
  intros Hnew. unfold resourceFirewallRuleCreate, NewFirewallRule.
  run_handler.
  pose proof (GetOk_guard "end_port" (d e)) as Hend.
  pose proof (GetOk_guard "label" (d e)) as Hlabel.
  destruct (GetOk "end_port" (d e)) as [endPort okEndPort].
  run_handler.
  destruct (GetOk "label" (d e)) as [label okLabel].
  run_handler. rewrite Hend, Hlabel. fold (rule_config_of ListOfSet (d e)).
  rewrite Hnew. by destruct err, rule; run_handler.
Qed.

(** X7. A firewall rule create sends one remote call before anything else, and
    its configuration carries every attribute as [d.Get] returns it, the
    [cidr] set in the order the SDK lists it; the [d.GetOk] guards on
    [end_port] and [label] make no difference.  When
    that call fails, the create reports an error, issues no further call
    and leaves the resource data, without an identifier, as it was. *)
Theorem rule_create_failure_leaves_no_identifier
    (e : Env R) (rule : option civogo.FirewallRule.t) (err : error) (remote1 : R) :
  api_NewFirewallRule api (client_region e) (rule_config_of ListOfSet (d e)) (remote e)
  = (rule, Some err, remote1) →
  ∃ e',
    resourceFirewallRuleCreate api ListOfSet e
    = Returned
        (diag.Errorf ("[ERR] failed to create a new firewall rule: " +:+ err)) e'
    ∧ d e' = d e
    ∧ calls e' = calls e ++ [CallNewFirewallRule (rule_config_of ListOfSet (d e))].
Proof.
  intros Hnew. rewrite (resourceFirewallRuleCreate_run _ _ _ _ Hnew).
  by eexists.
Qed.

(** X8. A firewall rule create whose remote call succeeds takes the identifier
    from the new rule and the attributes from the read that follows.  When
    that read finds a rule under the configured firewall and the new
    identifier, [firewall_id], [protocol], [start_port], [cidr],
    [direction], [action] and [label] are those of the rule the read found,
    not those of the create's answer; [end_port] is the found rule's end
    port when that is not empty and otherwise stays as it was; and two
    calls were issued. *)
Theorem rule_create_then_read
    (e : Env R) (rule r : civogo.FirewallRule.t) (remote1 remote2 : R) :
  api_NewFirewallRule api (client_region e) (rule_config_of ListOfSet (d e)) (remote e)
  = (Some rule, None, remote1) →
  api_FindFirewallRule api (client_region e)
    (Get "firewall_id" (d e)) (civogo.FirewallRule.ID rule) remote1
  = (Some r, None, remote2) →
  ∃ e',
    resourceFirewallRuleCreate api ListOfSet e = Returned [] e'
    ∧ Id (d e') = civogo.FirewallRule.ID rule
    ∧ Get "firewall_id" (d e') = civogo.FirewallRule.FirewallID r
    ∧ Get "protocol" (d e') = civogo.FirewallRule.Protocol r
    ∧ Get "start_port" (d e') = civogo.FirewallRule.StartPort r
    ∧ Get "end_port" (d e')
      = (if bool_decide (civogo.FirewallRule.EndPort r = "")
         then Get "end_port" (d e)
         else civogo.FirewallRule.EndPort r)
    ∧ GetSet "cidr" (d e') = list_to_set (civogo.FirewallRule.Cidr r)
    ∧ Get "direction" (d e') = civogo.FirewallRule.Direction r
    ∧ Get "action" (d e') = civogo.FirewallRule.Action r
    ∧ Get "label" (d e') = civogo.FirewallRule.Label r
    ∧ calls e'
      = calls e
        ++ [CallNewFirewallRule (rule_config_of ListOfSet (d e));
            CallFindFirewallRule (Get "firewall_id" (d e))
              (civogo.FirewallRule.ID rule)].
Proof.
  intros Hnew Hfound. rewrite (resourceFirewallRuleCreate_run _ _ _ _ Hnew).
  cbv zeta.
  match goal with |- ∃ _, resourceFirewallRuleRead api ?E = _ ∧ _ =>
    set (e1 := E) end.
  assert (api_FindFirewallRule api (client_region e1)
            (Get "firewall_id" (d e1)) (Id (d e1)) (remote e1)
          = (Some r, None, remote2)) as Hagain.
  { subst e1. cbn [d remote Region calls idCounter after_calls].
    by rewrite (client_region_after e). }
  rewrite (resourceFirewallRuleRead_found _ _ _ Hagain).
  eexists. split; [done|]. subst e1.
  cbn [d calls after_calls Region remote idCounter].
  destruct (decide (civogo.FirewallRule.EndPort r = "")) as [Hend|Hend].
  - rewrite (bool_decide_eq_false_2 (_ ≠ _)) by (by intros ?).
    rewrite (bool_decide_eq_true_2 (_ = _)) by done.
    repeat split; [by read_back..|by rewrite <- app_assoc].
  - rewrite (bool_decide_eq_true_2 (_ ≠ _)) by done.
    rewrite (bool_decide_eq_false_2 (_ = _)) by done.
    repeat split; [by read_back..|by rewrite <- app_assoc].
Qed.

(** The calls of a firewall read: its lookup. *)
Lemma resourceFirewallRead_calls (e : Env R) :
  calls (outcome_env (resourceFirewallRead api e))
  = calls e ++ [CallFindFirewall (Id (d e))].
Proof.
  unfold resourceFirewallRead, FindFirewall. run_handler.
  destruct (api_FindFirewall _ _ _ _) as [[resp err] remote'].
  by destruct err, resp; run_handler.
Qed.

(** What [resourceFirewallRead] does with a firewall it found. *)
Lemma resourceFirewallRead_found (e : Env R) fw remote' :
  api_FindFirewall api (client_region e) (Id (d e)) (remote e)
  = (Some fw, None, remote') →
  resourceFirewallRead api e
  = Returned []
      (mkEnv
         (Set_ "network_id" (civogo.Firewall.NetworkID fw)
            (Set_ "name" (civogo.Firewall.Name fw) (d e)))
         (client_region e) remote'
         (calls e ++ [CallFindFirewall (Id (d e))]) (idCounter e)).
Proof.
  intros Hfound. unfold resourceFirewallRead, FindFirewall.
  run_handler. rewrite Hfound. by run_handler.
Qed.

(** The firewall create from the point where the network is chosen: the
    calls [cs] were issued and left the remote side as [remote0]. *)
Lemma resourceFirewallCreate_with_network (e : Env R) cs networkID remote0
    fw err remote1 :
  api_NewFirewall api (client_region e) (Get "name" (d e)) networkID
    (GetBool "create_default_rules" (d e)) remote0 = (fw, err, remote1) →
  (CreateRules ← read_d (GetBool "create_default_rules");
   name ← read_d (Get "name");
   '(firewall, err) ← NewFirewall api name networkID CreateRules;
   match err with
   | Some err =>
       mret (diag.Errorf ("[ERR] failed to create a new firewall: " +:+ err))
   | None =>
       firewall ← deref firewall;
       write_d (SetId (civogo.FirewallResult.ID firewall));;
       resourceFirewallRead api
   end) (after_calls e cs remote0)
  = let e1 :=
      after_calls e
        (cs ++ [CallNewFirewall (Get "name" (d e)) networkID
                  (GetBool "create_default_rules" (d e))]) remote1 in
    match err, fw with
    | Some err, _ =>
        Returned (diag.Errorf ("[ERR] failed to create a new firewall: " +:+ err)) e1
    | None, None => Panicked e1
    | None, Some fw =>
        resourceFirewallRead api
          (mkEnv (SetId (civogo.FirewallResult.ID fw) (d e))
             (Region e1) (remote e1) (calls e1) (idCounter e1))
    end.
Proof.
  intros Hnew. unfold NewFirewall, after_calls. run_handler. rewrite Hnew.
  rewrite <- app_assoc. by destruct err, fw; run_handler.
Qed.

(** X9. The network of a new firewall.  With [network_id] set, the create
    starts with the create call for that network and never asks for the
    default network.  Without it, the create asks for the default network
    first: a failure ends the create there, with no create call, and an
    answer without error and without network makes it panic; otherwise the
    create call names the default network. *)
Theorem firewall_create_network_choice (e : Env R) :
  let o := resourceFirewallCreate api e in
  let name := Get "name" (d e) in
  let rules := GetBool "create_default_rules" (d e) in
  if bool_decide (Get "network_id" (d e) ≠ "")
  then ∃ rest,
         calls (outcome_env o)
         = calls e ++ CallNewFirewall name (Get "network_id" (d e)) rules :: rest
         ∧ CallGetDefaultNetwork ∉ rest
  else
    let '(network, err, remote0) :=
      api_GetDefaultNetwork api (client_region e) (remote e) in
    match err, network with
    | Some err, _ =>
        o = Returned
              (diag.Errorf ("[ERR] failed to get the default network: " +:+ err))
              (after_calls e [CallGetDefaultNetwork] remote0)
    | None, None => o = Panicked (after_calls e [CallGetDefaultNetwork] remote0)
    | None, Some n =>
        ∃ rest,
          calls (outcome_env o)
          = calls e
            ++ CallGetDefaultNetwork
               :: CallNewFirewall name (civogo.Network.ID n) rules :: rest
    end.
Proof.
  intros o name rules. subst o name rules.
  unfold resourceFirewallCreate. run_handler. unfold GetOk.
  cbv beta iota zeta.
  destruct (bool_decide (Get "network_id" (d e) ≠ "")).
  - destruct (api_NewFirewall api (client_region e) (Get "name" (d e))
                (Get "network_id" (d e)) (GetBool "create_default_rules" (d e))
                (remote e)) as [[fw err] remote1] eqn:Hnew.
    pose proof (resourceFirewallCreate_with_network e [] _ _ _ _ _ Hnew) as Hrun.
    unfold after_calls in Hrun at 1. rewrite app_nil_r in Hrun.
    rewrite Hrun. cbv zeta. cbn [app].
    destruct err as [err|]; [|destruct fw as [fw|]].
    + exists []. cbn [outcome_env calls after_calls].
      split; [done|]. apply not_elem_of_nil.
    + rewrite resourceFirewallRead_calls. cbn [calls after_calls d Id SetId rd_Id].
      rewrite <- app_assoc.
      exists [CallFindFirewall (civogo.FirewallResult.ID fw)].
      split; [reflexivity|].
      rewrite not_elem_of_cons. split; [done|]. apply not_elem_of_nil.
    + exists []. cbn [outcome_env calls after_calls].
      split; [done|]. apply not_elem_of_nil.
  - unfold GetDefaultNetwork. run_handler.
    destruct (api_GetDefaultNetwork _ _ _) as [[network err] remote0].
    destruct err as [err|]; [run_handler; reflexivity|].
    destruct network as [n|];
      [rewrite bind_deref_Some | rewrite bind_deref_None; reflexivity].
    destruct (api_NewFirewall api (client_region e) (Get "name" (d e))
                (civogo.Network.ID n) (GetBool "create_default_rules" (d e))
                remote0) as [[fw err] remote1] eqn:Hnew.
    pose proof (resourceFirewallCreate_with_network e [CallGetDefaultNetwork]
                  _ _ _ _ _ Hnew) as Hrun.
    unfold after_calls in Hrun at 1.
    rewrite Hrun. cbv zeta. cbn [app].
    destruct err as [err|]; [|destruct fw as [fw|]].
    + exists []. cbn [outcome_env calls after_calls]. reflexivity.
    + rewrite resourceFirewallRead_calls. cbn [calls after_calls d Id SetId rd_Id].
      rewrite <- ?app_assoc.
      exists [CallFindFirewall (civogo.FirewallResult.ID fw)]. reflexivity.
    + exists []. cbn [outcome_env calls after_calls]. reflexivity.
Qed.

(** X10. A firewall create with a configured network whose create call
    succeeds takes the identifier from the create's answer and then reads
    the firewall back: when the read finds it, the name and the network in
    the resource data are those the read found (the configured [network_id]
    is overwritten), and two calls were issued. *)
Theorem firewall_create_then_read
    (e : Env R) (created_fw : civogo.FirewallResult.t) (fw : civogo.Firewall.t)
    (remote1 remote2 : R) :
  Get "network_id" (d e) ≠ "" →
  api_NewFirewall api (client_region e) (Get "name" (d e))
    (Get "network_id" (d e)) (GetBool "create_default_rules" (d e)) (remote e)
  = (Some created_fw, None, remote1) →
  api_FindFirewall api (client_region e)
    (civogo.FirewallResult.ID created_fw) remote1
  = (Some fw, None, remote2) →
  ∃ e',
    resourceFirewallCreate api e = Returned [] e'
    ∧ Id (d e') = civogo.FirewallResult.ID created_fw
    ∧ Get "name" (d e') = civogo.Firewall.Name fw
    ∧ Get "network_id" (d e') = civogo.Firewall.NetworkID fw
    ∧ calls e'
      = calls e
        ++ [CallNewFirewall (Get "name" (d e)) (Get "network_id" (d e))
              (GetBool "create_default_rules" (d e));
            CallFindFirewall (civogo.FirewallResult.ID created_fw)].
Proof.
  intros Hnet Hnew Hfound.
  unfold resourceFirewallCreate. run_handler. unfold GetOk.
  cbv beta iota zeta. rewrite bool_decide_eq_true_2 by done.
  pose proof (resourceFirewallCreate_with_network e [] _ _ _ _ _ Hnew) as Hrun.
  unfold after_calls in Hrun at 1. rewrite app_nil_r in Hrun.
  rewrite Hrun. cbv zeta. cbn [app].
  match goal with |- ∃ _, resourceFirewallRead api ?E = _ ∧ _ =>
    set (e1 := E) end.
  assert (api_FindFirewall api (client_region e1) (Id (d e1)) (remote e1)
          = (Some fw, None, remote2)) as Hagain.
  { subst e1. cbn [d remote Region calls idCounter after_calls].
    by rewrite (client_region_after e). }
  rewrite (resourceFirewallRead_found _ _ _ Hagain).
  eexists. split; [done|]. subst e1.
  cbn [d calls after_calls Region remote idCounter].
  repeat split; [by read_back..|by rewrite <- app_assoc].
Qed.

(** X11. A firewall update whose rename call fails stops there: it reports an
    error (the message is tagged [WARN], the diagnostic is an error), does
    not run the read refresh, and leaves the resource data as it was. *)
Theorem update_failed_rename_skips_refresh
    (e : Env R) (resp : option SimpleResponse) (err : error) (remote1 : R) :
  HasChange "name" (d e) = true →
  Get "name" (d e) ≠ "" →
  api_RenameFirewall api (client_region e) (Id (d e))
    {| civogo.FirewallConfig.Name := Get "name" (d e) |} (remote e)
  = (resp, Some err, remote1) →
  ∃ diags e',
    resourceFirewallUpdate api e = Returned diags e'
    ∧ diags
      = diag.Errorf
          ("[WARN] an error occurred while tring to rename the firewall "
           +:+ Id (d e) +:+ ", " +:+ err)
    ∧ diag.HasError diags = true
    ∧ d e' = d e
    ∧ calls e'
      = calls e
        ++ [CallRenameFirewall (Id (d e))
              {| civogo.FirewallConfig.Name := Get "name" (d e) |}].
Proof.
  intros Hchanged Hname Hrename.
  unfold resourceFirewallUpdate, RenameFirewall. run_handler.
  rewrite Hchanged, bool_decide_eq_true_2 by done. cbn [andb].
  run_handler. rewrite Hrename. run_handler.
  by do 2 eexists.
Qed.

(** X12. The firewall declares [name] and [region] as changeable in place, but
    the update acts on a change of name only: when the name has not changed
    (or is empty) the update issues no call but the lookup of the read
    refresh, whatever else changed. *)
Theorem update_without_rename_only_looks_up (e : Env R) :
  HasChange "name" (d e) && bool_decide (Get "name" (d e) ≠ "") = false →
  calls (outcome_env (resourceFirewallUpdate api e))
  = calls e ++ [CallFindFirewall (Id (d e))]
  ∧ schema.ForceNew <$> schema.Schema_ (resourceFirewall api) !! "name"
    = Some false
  ∧ schema.ForceNew <$> schema.Schema_ (resourceFirewall api) !! "region"
    = Some false.
Proof.
  intros Hcond. split; [|by vm_compute].
  unfold resourceFirewallUpdate. run_handler. rewrite Hcond.
  rewrite resourceFirewallRead_region. apply resourceFirewallRead_calls.
Qed.

(** X13. The firewall resource declares four attributes; a change of
    [create_default_rules] or [network_id] forces a new firewall, a change
    of [name] or [region] does not; [create_default_rules] defaults to
    true; and the resource registers an update function. *)
Theorem firewall_schema_mutability :
  dom (schema.Schema_ (resourceFirewall api))
  = {[ "name"; "region"; "create_default_rules"; "network_id" ]}
  ∧ schema.ForceNew <$> schema.Schema_ (resourceFirewall api)
    = {[ "name" := false; "region" := false;
         "create_default_rules" := true; "network_id" := true ]}
  ∧ schema.Default <$> schema.Schema_ (resourceFirewall api) !! "create_default_rules"
    = Some (Some true)
  ∧ schema.UpdateContext (resourceFirewall api) = Some (resourceFirewallUpdate api).
Proof.
  cbn [schema.Schema_ schema.UpdateContext resourceFirewall].
  split; [|split; [|split; [|done]]].
  - rewrite !dom_list_to_map_L. cbn [fst fmap list_fmap]. set_solver.
  - apply map_eq. intros key. by vm_compute.
  - by vm_compute.
Qed.

(** X14. The volume attachment resource declares exactly [instance_id],
    [volume_id] and [region]; every one of them forces a new attachment;
    and the resource registers neither an update function nor an importer. *)
Theorem volume_attachment_is_immutable :
  dom (schema.Schema_ (resourceVolumeAttachment api UniqueIdSuffix))
  = {[ "instance_id"; "volume_id"; "region" ]}
  ∧ map_Forall (λ _ s, schema.ForceNew s = true)
      (schema.Schema_ (resourceVolumeAttachment api UniqueIdSuffix))
  ∧ schema.UpdateContext (resourceVolumeAttachment api UniqueIdSuffix) = None
  ∧ schema.Importer (resourceVolumeAttachment api UniqueIdSuffix) = None.
Proof.
  cbn [schema.Schema_ schema.UpdateContext schema.Importer resourceVolumeAttachment].
  split; [|split; [|done]].
  - rewrite !dom_list_to_map_L. cbn [fst fmap list_fmap]. set_solver.
  - apply map_Forall_to_list. vm_compute. repeat constructor.
Qed.

(** What [resourceVolumeAttachmentRead] does with a volume it found. *)
Lemma resourceVolumeAttachmentRead_found (e : Env R) v remote' :
  api_FindVolume api (client_region e) (Get "volume_id" (d e)) (remote e)
  = (Some v, None, remote') →
  resourceVolumeAttachmentRead api e
  = Returned []
      (mkEnv
         (if bool_decide (civogo.Volume.InstanceID v = "")
             || bool_decide (civogo.Volume.InstanceID v ≠ Get "instance_id" (d e))
          then SetId "" (d e) else d e)
         (client_region e) remote'
         (calls e ++ [CallFindVolume (Get "volume_id" (d e))]) (idCounter e)).
Proof.
  intros Hfound. unfold resourceVolumeAttachmentRead, FindVolume.
  run_handler. rewrite Hfound. run_handler.
  by destruct (_ || _); run_handler.
Qed.

(** X15. A volume attachment create that fails in its own lookup of the volume,
    or in the attach call, reports an error and stops: no identifier is
    made (the counter of unique identifiers stays), the resource data is as
    it was, and no read follows. *)
Theorem volume_create_failure_sets_no_identifier (e : Env R) :
  (∃ volume err remote1,
     api_FindVolume api (client_region e) (Get "volume_id" (d e)) (remote e)
     = (volume, Some err, remote1))
  ∨ (∃ v remote1 resp err remote2,
       api_FindVolume api (client_region e) (Get "volume_id" (d e)) (remote e)
       = (Some v, None, remote1)
       ∧ bool_decide (civogo.Volume.InstanceID v = "")
         || bool_decide (civogo.Volume.InstanceID v ≠ Get "instance_id" (d e))
         = true
       ∧ api_AttachVolume api (client_region e) (Get "volume_id" (d e))
           (Get "instance_id" (d e)) remote1
         = (resp, Some err, remote2)) →
  ∃ diags e',
    resourceVolumeAttachmentCreate api UniqueIdSuffix e = Returned diags e'
    ∧ diag.HasError diags = true
    ∧ d e' = d e
    ∧ idCounter e' = idCounter e
    ∧ (calls e' = calls e ++ [CallFindVolume (Get "volume_id" (d e))]
       ∨ calls e'
         = calls e
           ++ [CallFindVolume (Get "volume_id" (d e));
               CallAttachVolume (Get "volume_id" (d e)) (Get "instance_id" (d e))]).
Proof.
  intros [(volume & err & remote1 & Hfind)
         |(v & remote1 & resp & err & remote2 & Hfind & Hcond & Hattach)].
  - unfold resourceVolumeAttachmentCreate, FindVolume. run_handler.
    rewrite Hfind. run_handler. do 2 eexists. split; [done|].
    cbn [d calls idCounter]. auto.
  - rewrite (resourceVolumeAttachmentCreate_found _ _ _ Hfind). cbv zeta.
    rewrite Hcond, Hattach. do 2 eexists. split; [done|].
    cbn [after_calls d calls idCounter]. auto.
Qed.

(** X16. After a successful attach call the create keeps the new identifier only
    if the read that follows finds the volume attached to the instance.
    When that read finds the volume still unattached, or attached
    elsewhere, the create reports no error and leaves the resource without
    an identifier. *)
Theorem volume_create_after_attach
    (e : Env R) (v v2 : civogo.Volume.t) (resp : option SimpleResponse)
    (remote1 remote2 remote3 : R) :
  api_FindVolume api (client_region e) (Get "volume_id" (d e)) (remote e)
  = (Some v, None, remote1) →
  bool_decide (civogo.Volume.InstanceID v = "")
  || bool_decide (civogo.Volume.InstanceID v ≠ Get "instance_id" (d e)) = true →
  api_AttachVolume api (client_region e) (Get "volume_id" (d e))
    (Get "instance_id" (d e)) remote1
  = (resp, None, remote2) →
  api_FindVolume api (client_region e) (Get "volume_id" (d e)) remote2
  = (Some v2, None, remote3) →
  ∃ e',
    resourceVolumeAttachmentCreate api UniqueIdSuffix e = Returned [] e'
    ∧ d e'
      = (if bool_decide (civogo.Volume.InstanceID v2 = "")
            || bool_decide (civogo.Volume.InstanceID v2 ≠ Get "instance_id" (d e))
         then SetId "" (d e)
         else SetId
                ((Get "instance_id" (d e) +:+ "-" +:+ Get "volume_id" (d e) +:+ "-")
                 +:+ UniqueIdSuffix (S (idCounter e))) (d e))
    ∧ calls e'
      = calls e
        ++ [CallFindVolume (Get "volume_id" (d e));
            CallAttachVolume (Get "volume_id" (d e)) (Get "instance_id" (d e));
            CallFindVolume (Get "volume_id" (d e))].
Proof.
  intros Hfind Hcond Hattach Hback.
  rewrite (resourceVolumeAttachmentCreate_found _ _ _ Hfind). cbv zeta.
  rewrite Hcond, Hattach.
  match goal with |- ∃ _, resourceVolumeAttachmentRead api ?E = _ ∧ _ =>
    set (e1 := E) end.
  assert (api_FindVolume api (client_region e1) (Get "volume_id" (d e1)) (remote e1)
          = (Some v2, None, remote3)) as Hagain.
  { subst e1. unfold created. cbn [d remote].
    by rewrite (client_region_after e). }
  rewrite (resourceVolumeAttachmentRead_found _ _ _ Hagain).
  eexists. split; [done|]. subst e1. unfold created. cbn [d calls].
  split; [|by rewrite <- app_assoc].
  by destruct (_ || _).
Qed.

(** The region of the client after each read. *)
Lemma readContext_region (k : Kind) (e : Env R) :
  Region (outcome_env (readContext api k e)) = client_region e.
Proof.
  destruct k; unfold readContext.
  - unfold resourceFirewallRead, FindFirewall. run_handler.
    destruct (api_FindFirewall _ _ _ _) as [[resp err] remote'].
    by destruct err, resp; run_handler.
  - unfold resourceFirewallRuleRead, FindFirewallRule. run_handler.
    destruct (api_FindFirewallRule _ _ _ _ _) as [[resp err] remote'].
    destruct err, resp; run_handler; try done.
    by destruct (bool_decide _); run_handler.
  - unfold resourceVolumeAttachmentRead, FindVolume. run_handler.
    destruct (api_FindVolume _ _ _ _) as [[resp err] remote'].
    destruct err, resp; run_handler; try done.
    by destruct (_ || _); run_handler.
Qed.

(** The same for a read that continues a handler started in [e], after the
    identifier was set. *)
Lemma readContext_region_after (k : Kind) (e : Env R) id (remote' : R) cs n :
  Region
    (outcome_env
       (readContext api k (mkEnv (SetId id (d e)) (client_region e) remote' cs n)))
  = client_region e.
Proof. rewrite readContext_region. by apply client_region_after. Qed.

(** X17. Every create, read, update and delete function, and the firewall rule
    import, leaves the client's region as it set it on entry: the [region]
    attribute of the resource when that is not empty, and otherwise the
    region the client had.  The region is never put back, whether the
    handler returns, reports an error or panics. *)
Theorem handlers_leave_region_overwritten (e : Env R) :
  (∀ k h,
     h ∈ registered (resource_of api ResourceCommonParseID UniqueIdSuffix ListOfSet k) →
     Region (outcome_env (h e)) = client_region e)
  ∧ Region (outcome_env (resourceFirewallRuleImport api ResourceCommonParseID e))
    = client_region e.
Proof.
  split.
  - intros k h Hh.
    destruct k; cbn in Hh;
      repeat (apply elem_of_cons in Hh as [->|Hh]);
      try (by apply elem_of_nil in Hh).
    + (* firewall create *)
      unfold resourceFirewallCreate. run_handler. unfold GetOk.
      cbv beta iota zeta.
      destruct (bool_decide (Get "network_id" (d e) ≠ "")).
      * destruct (api_NewFirewall api (client_region e) (Get "name" (d e))
                    (Get "network_id" (d e))
                    (GetBool "create_default_rules" (d e)) (remote e))
          as [[fw err] remote1] eqn:Hnew.
        pose proof (resourceFirewallCreate_with_network e [] _ _ _ _ _ Hnew)
          as Hrun.
        unfold after_calls in Hrun at 1. rewrite app_nil_r in Hrun.
        rewrite Hrun. cbv zeta.
        destruct err as [err|]; [done|]. destruct fw as [fw|]; [|done].
        apply (readContext_region_after KFirewall).
      * unfold GetDefaultNetwork. run_handler.
        destruct (api_GetDefaultNetwork _ _ _) as [[network err] remote0].
        destruct err as [err|]; [by run_handler|].
        destruct network as [n|];
          [rewrite bind_deref_Some | by rewrite bind_deref_None].
        destruct (api_NewFirewall api (client_region e) (Get "name" (d e))
                    (civogo.Network.ID n)
                    (GetBool "create_default_rules" (d e)) remote0)
          as [[fw err] remote1] eqn:Hnew.
        pose proof (resourceFirewallCreate_with_network e [CallGetDefaultNetwork]
                      _ _ _ _ _ Hnew) as Hrun.
        unfold after_calls in Hrun at 1. rewrite Hrun. cbv zeta.
        destruct err as [err|]; [done|]. destruct fw as [fw|]; [|done].
        apply (readContext_region_after KFirewall).
    + apply (readContext_region KFirewall).
    + (* firewall update *)
      unfold resourceFirewallUpdate. run_handler.
      destruct (_ && _).
      * unfold RenameFirewall. run_handler.
        destruct (api_RenameFirewall _ _ _ _ _) as [[resp err] remote1].
        destruct err as [err|]; run_handler; [done|].
        etrans; [apply (readContext_region KFirewall)|].
        by apply client_region_after.
      * etrans; [apply (readContext_region KFirewall)|].
        by apply client_region_after.
    + (* firewall delete *)
      unfold resourceFirewallDelete, FindFirewall. run_handler.
      destruct (api_FindFirewall _ _ _ _) as [[resp ferr] remote1].
      destruct ferr as [ferr|]; run_handler; [done|].
      unfold DeleteFirewall. run_handler.
      destruct (api_DeleteFirewall _ _ _ _) as [[resp' derr] remote2].
      by destruct derr; run_handler.
    + (* firewall rule create *)
      destruct (api_NewFirewallRule api (client_region e) (rule_config_of ListOfSet (d e))
                  (remote e)) as [[rule err] remote1] eqn:Hnew.
      rewrite (resourceFirewallRuleCreate_run _ _ _ _ Hnew). cbv zeta.
      destruct err as [err|]; [done|]. destruct rule as [rule|]; [|done].
      apply (readContext_region_after KFirewallRule).
    + apply (readContext_region KFirewallRule).
    + (* firewall rule delete *)
      unfold resourceFirewallRuleDelete, DeleteFirewallRule. run_handler.
      destruct (api_DeleteFirewallRule _ _ _ _ _) as [[resp derr] remote1].
      by destruct derr; run_handler.
    + (* volume attachment create *)
      unfold resourceVolumeAttachmentCreate, FindVolume. run_handler.
      destruct (api_FindVolume _ _ _ _) as [[volume err] remote1].
      destruct err as [err|]; run_handler; [done|].
      destruct volume as [v|]; run_handler; [|done].
      cbv zeta. destruct (_ || _).
      * unfold AttachVolume. run_handler.
        destruct (api_AttachVolume _ _ _ _ _) as [[resp aerr] remote2].
        destruct aerr as [aerr|]; run_handler; [done|].
        apply (readContext_region_after KVolumeAttachment).
      * run_handler. apply (readContext_region_after KVolumeAttachment).
    + apply (readContext_region KVolumeAttachment).
    + (* volume attachment delete *)
      unfold resourceVolumeAttachmentDelete, DetachVolume. run_handler.
      destruct (api_DetachVolume _ _ _ _) as [[resp derr] remote1].
      by destruct derr; run_handler.
  - destruct (ResourceCommonParseID (Id (d e))) as [[firewallID ruleID] perr]
      eqn:Hparse.
    destruct (api_FindFirewallRule api (client_region e) firewallID ruleID (remote e))
      as [[resp lerr] remote1] eqn:Hlookup.
    rewrite (resourceFirewallRuleImport_run _ _ _ _ _ _ _ Hparse Hlookup).
    by destruct perr, resp, lerr.
Qed.

End Properties.

(** * Examples on the scripted remote side *)

(** C2 at a rule that no longer exists: the lookup answers an error and no
    response, and the read clears the identifier silently. *)
Lemma read_failed_lookup_witness :
  read_lookup (scripted nothing_exists) KFirewallRule rule_env
  = (false, Some "ZeroMatchesError")
  ∧ ∃ diags e',
      readContext (scripted nothing_exists) KFirewallRule rule_env
      = Returned diags e'
      ∧ diags = [] ∧ d e' = SetId "" (d rule_env).
Proof.
  split; [reflexivity|].
  exact (read_failed_lookup (scripted nothing_exists) KFirewallRule rule_env
           false "ZeroMatchesError" eq_refl).
Defined.

(** The same read when the failed lookup hands back a response: an error is
    reported and the identifier stays. *)
Example read_failed_lookup_with_response :
  resourceFirewallRuleRead (scripted fails_with_response) rule_env
  = Returned
      (diag.Errorf "[ERR] error retrieving firewall rule: ServerError")
      (mkEnv (d rule_env) "LON1" () [CallFindFirewallRule "fw-1" "rule-1"] 0).
Proof. reflexivity. Qed.

(** C1 fails for the firewall rule: deleting a rule the remote side does not
    find ends in an error diagnostic. *)
Lemma rule_delete_of_missing_rule_reports_error :
  api_DeleteFirewallRule (scripted nothing_exists) "LON1" "fw-1" "rule-1" ()
  = ((None, Some "DatabaseNotFoundError"), ())
  ∧ resourceFirewallRuleDelete (scripted nothing_exists) rule_env
    = Returned
        (diag.Errorf
           "[ERR] an error occurred while tring to delete firewall rule rule-1 - DatabaseNotFoundError")
        (mkEnv (d rule_env) "LON1" () [CallDeleteFirewallRule "fw-1" "rule-1"] 0).
Proof. split; reflexivity. Qed.

(** The volume attachment delete does the same with a failed detach, while
    the firewall delete of a firewall that is not found succeeds. *)
Example attachment_delete_of_missing_volume :
  resourceVolumeAttachmentDelete (scripted nothing_exists) attachment_env
  = Returned
      (diag.Errorf
         "[ERR] an error occurred while tring to detach the volume DatabaseNotFoundError")
      (mkEnv (d attachment_env) "NYC1" () [CallDetachVolume "vol-1"] 0).
Proof. reflexivity. Qed.

Example firewall_delete_of_missing_firewall :
  resourceFirewallDelete (scripted nothing_exists) (sample_env "fw-1" [])
  = Returned [] (mkEnv (sample_data "fw-1" []) "LON1" () [CallFindFirewall "fw-1"] 0).
Proof. reflexivity. Qed.

(** C7 at a volume attached to another instance, where the read clears the
    identifier, and at a volume attached to the instance of the resource,
    where the read keeps it. *)
Lemma volume_attachment_read_invariant_witness :
  (api_FindVolume (scripted (healthy "inst-2")) "NYC1" "vol-1" ()
   = (Some {| civogo.Volume.ID := "vol-1"; civogo.Volume.InstanceID := "inst-2" |},
      None, ())
   ∧ ∃ e',
       resourceVolumeAttachmentRead (scripted (healthy "inst-2")) attachment_env
       = Returned [] e'
       ∧ d e' = SetId "" (d attachment_env)
       ∧ Id (d e') = "")
  ∧ (resourceVolumeAttachmentRead (scripted (healthy "inst-1")) attachment_env
     = Returned []
         (mkEnv (d attachment_env) "NYC1" () [CallFindVolume "vol-1"] 0)
     ∧ ∃ v,
         Some {| civogo.Volume.ID := "vol-1"; civogo.Volume.InstanceID := "inst-1" |}
         = Some v
         ∧ None = (None : option error)
         ∧ civogo.Volume.InstanceID v = "inst-1"
         ∧ Id (d attachment_env) = "inst-1-vol-1-7").
Proof.
  split.
  - split; [reflexivity|].
    refine (proj2
              (volume_attachment_read_invariant (scripted (healthy "inst-2"))
                 attachment_env _ _ () eq_refl) _ eq_refl eq_refl _).
    right. discriminate.
  - split; [reflexivity|].
    refine (proj1
              (volume_attachment_read_invariant (scripted (healthy "inst-1"))
                 attachment_env _ _ () eq_refl)
              [] (mkEnv (d attachment_env) "NYC1" () [CallFindVolume "vol-1"] 0)
              eq_refl eq_refl _).
    discriminate.
Defined.

(** The same read when the volume is attached elsewhere, or nowhere: the
    identifier is cleared. *)
Example volume_attachment_read_detached :
  resourceVolumeAttachmentRead (scripted (healthy "inst-2")) attachment_env
  = Returned []
      (mkEnv (SetId "" (d attachment_env)) "NYC1" () [CallFindVolume "vol-1"] 0)
  ∧ resourceVolumeAttachmentRead (scripted (healthy "")) attachment_env
    = Returned []
        (mkEnv (SetId "" (d attachment_env)) "NYC1" () [CallFindVolume "vol-1"] 0).
Proof. split; reflexivity. Qed.

(** C10 at a remote rule without end port: the planned [end_port] stays, the
    other attributes are the remote ones. *)
Lemma rule_read_keeps_end_port_when_empty_witness :
  api_FindFirewallRule (scripted (healthy "inst-1")) "LON1" "fw-1" "rule-1" ()
  = (Some sample_rule, None, ())
  ∧ ∃ e',
      resourceFirewallRuleRead (scripted (healthy "inst-1")) rule_env
      = Returned [] e'
      ∧ Get "end_port" (d e') = "8443"
      ∧ Get "start_port" (d e') = "443"
      ∧ Get "label" (d e') = "https"
      ∧ strs (rd_set (d e')) !! "end_port" = None.
Proof.
  split; [reflexivity|].
  destruct (rule_read_keeps_end_port_when_empty (scripted (healthy "inst-1"))
              rule_env sample_rule () eq_refl)
    as (e' & Hrun & _ & _ & Hstart & _ & _ & _ & Hlabel & Hend & Hkept).
  exists e'. repeat split; assumption.
Defined.

(** C6 at a well-formed identifier and a rule the remote side has. *)
Lemma import_parses_and_populates_witness :
  sample_ParseID (Id (d import_env)) = ("fw-1", "rule-1", None)
  ∧ ∃ e',
      resourceFirewallRuleImport (scripted (healthy "inst-1")) sample_ParseID
        import_env
      = Returned ([d e'], None) e'
      ∧ calls e' = [CallFindFirewallRule "fw-1" "rule-1"]
      ∧ Id (d e') = "rule-1"
      ∧ Get "firewall_id" (d e') = "fw-1"
      ∧ Get "protocol" (d e') = "tcp"
      ∧ Get "start_port" (d e') = "443"
      ∧ Get "end_port" (d e') = ""
      ∧ GetSet "cidr" (d e') = list_to_set ["0.0.0.0/0"]
      ∧ Get "direction" (d e') = "ingress"
      ∧ Get "action" (d e') = "allow"
      ∧ Get "label" (d e') = "https".
Proof.
  split; [reflexivity|].
  exact (import_parses_and_populates (scripted (healthy "inst-1")) sample_ParseID
           import_env "fw-1" "rule-1" None eq_refl sample_rule () eq_refl).
Defined.

(** The import of an identifier that does not parse: the parse error, no
    resource data, no call. *)
Example import_of_malformed_identifier :
  resourceFirewallRuleImport (scripted (healthy "inst-1")) sample_ParseID
    (sample_env "rule-1" [])
  = Returned ([], Some "unexpected format of ID rule-1") (sample_env "rule-1" []).
Proof. reflexivity. Qed.

(** C9 at a rule that does not exist: the import panics. *)
Lemma import_failed_lookup_witness :
  sample_ParseID (Id (d import_env)) = ("fw-1", "rule-1", None)
  ∧ api_FindFirewallRule (scripted nothing_exists) "LON1" "fw-1" "rule-1" ()
    = (None, Some "ZeroMatchesError", ())
  ∧ ∃ e',
      resourceFirewallRuleImport (scripted nothing_exists) sample_ParseID import_env
      = Panicked e'
      ∧ d e' = d import_env.
Proof.
  split; [reflexivity|]. split; [reflexivity|].
  exact (import_failed_lookup (scripted nothing_exists) sample_ParseID import_env
           "fw-1" "rule-1" None "ZeroMatchesError" () eq_refl eq_refl).
Defined.

(** C3 at a volume already attached to the requested instance. *)
Lemma create_attaches_unless_attached_witness :
  api_FindVolume (scripted (healthy "inst-1")) "NYC1" "vol-1" ()
  = (Some {| civogo.Volume.ID := "vol-1"; civogo.Volume.InstanceID := "inst-1" |},
     None, ())
  ∧ attach_calls
      (resourceVolumeAttachmentCreate (scripted (healthy "inst-1")) sample_suffix
         attachment_env) = []
  ∧ ∃ e1,
      resourceVolumeAttachmentCreate (scripted (healthy "inst-1")) sample_suffix
        attachment_env
      = resourceVolumeAttachmentRead (scripted (healthy "inst-1")) e1
      ∧ Id (d e1) = "inst-1-vol-1-1"
      ∧ Id (d e1) ≠ "".
Proof.
  split; [reflexivity|].
  refine (proj2
            (create_attaches_unless_attached (scripted (healthy "inst-1"))
               sample_suffix attachment_env _ () eq_refl) _ eq_refl).
  discriminate.
Defined.

(** The same create when the volume is attached nowhere: one attach call. *)
Example create_attaches_detached_volume :
  resourceVolumeAttachmentCreate (scripted (healthy "")) sample_suffix
    attachment_env
  = Returned []
      (mkEnv (SetId "" (d attachment_env)) "NYC1" ()
         [CallFindVolume "vol-1"; CallAttachVolume "vol-1" "inst-1";
          CallFindVolume "vol-1"] 1).
Proof. reflexivity. Qed.

(** C8 at a create that succeeds. *)
Lemma create_identifier_is_synthesized_witness :
  resourceVolumeAttachmentCreate (scripted (healthy "inst-1")) sample_suffix
    create_env
  = Returned []
      (mkEnv (SetId "inst-1-vol-1-1" (d create_env)) "LON1" ()
         [CallFindVolume "vol-1"; CallFindVolume "vol-1"] 1)
  ∧ (∃ e1,
       resourceVolumeAttachmentCreate (scripted (healthy "inst-1")) sample_suffix
         create_env
       = resourceVolumeAttachmentRead (scripted (healthy "inst-1")) e1
       ∧ d e1 = SetId "inst-1-vol-1-1" (d create_env))
  ∧ (SetId "inst-1-vol-1-1" (d create_env) = SetId "inst-1-vol-1-1" (d create_env)
     ∨ SetId "inst-1-vol-1-1" (d create_env) = SetId "" (d create_env))
  ∧ "inst-1-vol-1-1" ≠ "".
Proof.
  split; [reflexivity|].
  exact (create_identifier_is_synthesized (scripted (healthy "inst-1"))
           sample_suffix create_env
           (mkEnv (SetId "inst-1-vol-1-1" (d create_env)) "LON1" ()
              [CallFindVolume "vol-1"; CallFindVolume "vol-1"] 1)
           [] eq_refl eq_refl).
Defined.

(** C4 on the scripted side: a changed, non-empty name is sent; an unchanged
    one is not. *)
Example update_of_changed_name :
  resourceFirewallUpdate (scripted (healthy "inst-1"))
    (sample_env "fw-1" [("name", "web")])
  = Returned []
      (mkEnv
         (Set_ "network_id" "net-1"
            (Set_ "name" "web" (sample_data "fw-1" [("name", "web")])))
         "LON1" ()
         [CallRenameFirewall "fw-1" {| civogo.FirewallConfig.Name := "web" |};
          CallFindFirewall "fw-1"] 0).
Proof. reflexivity. Qed.

Example update_of_unchanged_name :
  rename_calls
    (resourceFirewallUpdate (scripted (healthy "inst-1"))
       (mkEnv
          {| rd_Id := "fw-1";
             rd_state := {| strs := {[ "name" := "web" ]}; bools := ∅; sets := ∅ |};
             rd_diff := {| strs := {[ "name" := "web" ]}; bools := ∅; sets := ∅ |};
             rd_set := no_fields |}
          "LON1" () [] 0))
  = [].
Proof. reflexivity. Qed.

(** * Examples for the further properties *)

(** X3 at an instance of the scripted remote side. *)
Lemma firewall_read_writes_name_and_network_witness :
  api_FindFirewall (scripted (healthy "inst-1")) "NYC1" "fw-1" ()
  = (Some sample_firewall, None, ())
  ∧ ∃ e',
      resourceFirewallRead (scripted (healthy "inst-1")) firewall_env
      = Returned [] e'
      ∧ Get "name" (d e') = "web"
      ∧ Get "network_id" (d e') = "net-1"
      ∧ Id (d e') = "fw-1"
      ∧ Get "region" (d e') = "NYC1".
Proof.
  split; [reflexivity|].
  destruct (firewall_read_writes_name_and_network (scripted (healthy "inst-1"))
              firewall_env sample_firewall () eq_refl)
    as (e' & Hrun & Hname & Hnet & Hid & _ & _ & Hother & _).
  exists e'. repeat split; try assumption.
  by rewrite Hother.
Defined.

(** X4 at an instance of the scripted remote side. *)
Lemma rule_read_frame_witness :
  api_FindFirewallRule (scripted (healthy "inst-1")) "LON1" "fw-1" "rule-1" ()
  = (Some sample_rule, None, ())
  ∧ ∃ e',
      resourceFirewallRuleRead (scripted (healthy "inst-1")) rule_env
      = Returned [] e'
      ∧ Id (d e') = "rule-1"
      ∧ Get "region" (d e') = ""
      ∧ calls e' = [CallFindFirewallRule "fw-1" "rule-1"].
Proof.
  split; [reflexivity|].
  destruct (rule_read_frame (scripted (healthy "inst-1")) rule_env sample_rule ()
              eq_refl)
    as (e' & Hrun & Hid & _ & _ & _ & Hregion & _ & Hcalls).
  exists e'. repeat split; assumption.
Defined.

(** X5 at an instance of the scripted remote side. *)
Lemma rule_read_is_idempotent_witness :
  ∃ e1 e2,
    resourceFirewallRuleRead (scripted (healthy "inst-1")) rule_env
    = Returned [] e1
    ∧ resourceFirewallRuleRead (scripted (healthy "inst-1")) e1 = Returned [] e2
    ∧ d e2 = d e1.
Proof.
  exact (rule_read_is_idempotent (scripted (healthy "inst-1")) rule_env
           sample_rule () () eq_refl eq_refl).
Defined.

(** X6 at an instance of the scripted remote side. *)
Lemma import_then_read_is_stable_witness :
  sample_ParseID (Id (d import_env)) = ("fw-1", "rule-1", None)
  ∧ ∃ e1 e2,
      resourceFirewallRuleImport (scripted (healthy "inst-1")) sample_ParseID
        import_env
      = Returned ([d e1], None) e1
      ∧ resourceFirewallRuleRead (scripted (healthy "inst-1")) e1 = Returned [] e2
      ∧ d e2 = d e1.
Proof.
  split; [reflexivity|].
  exact (import_then_read_is_stable (scripted (healthy "inst-1")) sample_ParseID
           import_env "fw-1" "rule-1" sample_rule () () eq_refl eq_refl eq_refl).
Defined.

(** X7 at an instance of the scripted remote side: the call that fails
    carries the attributes of the resource data, its one CIDR block and its
    end port among them. *)
Lemma rule_create_failure_leaves_no_identifier_witness :
  rule_config_of sample_ListOfSet (d new_rule_env)
  = {| civogo.FirewallRuleConfig.FirewallID := "fw-1";
       civogo.FirewallRuleConfig.Protocol := "tcp";
       civogo.FirewallRuleConfig.StartPort := "443";
       civogo.FirewallRuleConfig.EndPort := "8443";
       civogo.FirewallRuleConfig.Cidr := ["10.0.0.0/8"];
       civogo.FirewallRuleConfig.Direction := "ingress";
       civogo.FirewallRuleConfig.Action := "allow";
       civogo.FirewallRuleConfig.Label := "" |}
  ∧ api_NewFirewallRule (scripted nothing_exists) "LON1"
      (rule_config_of sample_ListOfSet (d new_rule_env)) ()
    = (None, Some "not scripted", ())
  ∧ ∃ e',
      resourceFirewallRuleCreate (scripted nothing_exists) sample_ListOfSet
        new_rule_env
      = Returned
          (diag.Errorf "[ERR] failed to create a new firewall rule: not scripted")
          e'
      ∧ d e' = d new_rule_env
      ∧ calls e'
        = [CallNewFirewallRule (rule_config_of sample_ListOfSet (d new_rule_env))].
Proof.
  split; [by vm_compute|]. split; [reflexivity|].
  exact (rule_create_failure_leaves_no_identifier (scripted nothing_exists)
           sample_ListOfSet new_rule_env None "not scripted" () eq_refl).
Defined.

(** X8 at an instance of the scripted remote side: the rule the read finds
    has no end port, so the planned one stays. *)
Lemma rule_create_then_read_witness :
  ∃ e',
    resourceFirewallRuleCreate (creating (healthy "inst-1")) sample_ListOfSet
      new_rule_env
    = Returned [] e'
    ∧ Id (d e') = "rule-1"
    ∧ Get "firewall_id" (d e') = "fw-1"
    ∧ Get "protocol" (d e') = "tcp"
    ∧ Get "start_port" (d e') = "443"
    ∧ Get "end_port" (d e') = "8443"
    ∧ GetSet "cidr" (d e') = list_to_set ["0.0.0.0/0"]
    ∧ Get "direction" (d e') = "ingress"
    ∧ Get "action" (d e') = "allow"
    ∧ Get "label" (d e') = "https"
    ∧ calls e'
      = [CallNewFirewallRule (rule_config_of sample_ListOfSet (d new_rule_env));
         CallFindFirewallRule "fw-1" "rule-1"].
Proof.
  exact (rule_create_then_read (creating (healthy "inst-1")) sample_ListOfSet
           new_rule_env sample_rule sample_rule () () eq_refl eq_refl).
Defined.

(** X10 at an instance of the scripted remote side. *)
Lemma firewall_create_then_read_witness :
  ∃ e',
    resourceFirewallCreate (creating (healthy "inst-1")) new_firewall_env
    = Returned [] e'
    ∧ Id (d e') = "fw-1"
    ∧ Get "name" (d e') = "web"
    ∧ Get "network_id" (d e') = "net-1"
    ∧ calls e' = [CallNewFirewall "web" "net-9" true; CallFindFirewall "fw-1"].
Proof.
  refine (firewall_create_then_read (creating (healthy "inst-1")) new_firewall_env
            {| civogo.FirewallResult.ID := "fw-1" |} sample_firewall () ()
            _ eq_refl eq_refl).
  discriminate.
Defined.

(** X11 at an instance of the scripted remote side. *)
Lemma update_failed_rename_skips_refresh_witness :
  ∃ diags e',
    resourceFirewallUpdate (scripted nothing_exists) firewall_env
    = Returned diags e'
    ∧ diags
      = diag.Errorf
          "[WARN] an error occurred while tring to rename the firewall fw-1, DatabaseNotFoundError"
    ∧ diag.HasError diags = true
    ∧ d e' = d firewall_env
    ∧ calls e'
      = [CallRenameFirewall "fw-1" {| civogo.FirewallConfig.Name := "old-name" |}].
Proof.
  refine (update_failed_rename_skips_refresh (scripted nothing_exists) firewall_env
            None "DatabaseNotFoundError" () eq_refl _ eq_refl).
  discriminate.
Defined.

(** X12 at an instance of the scripted remote side. *)
Lemma update_without_rename_only_looks_up_witness :
  HasChange "name" (d unchanged_firewall_env) = false
  ∧ calls
      (outcome_env
         (resourceFirewallUpdate (scripted (healthy "inst-1"))
            unchanged_firewall_env))
    = [CallFindFirewall "fw-1"].
Proof.
  split; [reflexivity|].
  exact (proj1 (update_without_rename_only_looks_up (scripted (healthy "inst-1"))
                  unchanged_firewall_env eq_refl)).
Defined.

(** X15 at an instance of the scripted remote side. *)
Lemma volume_create_failure_sets_no_identifier_witness :
  ∃ diags e',
    resourceVolumeAttachmentCreate (scripted nothing_exists) sample_suffix
      create_env
    = Returned diags e'
    ∧ diag.HasError diags = true
    ∧ d e' = d create_env
    ∧ idCounter e' = 0
    ∧ (calls e' = [CallFindVolume "vol-1"]
       ∨ calls e' = [CallFindVolume "vol-1"; CallAttachVolume "vol-1" "inst-1"]).
Proof.
  refine (volume_create_failure_sets_no_identifier (scripted nothing_exists)
            sample_suffix create_env _).
  left. exists None, "ZeroMatchesError", (). reflexivity.
Defined.

(** X16 at an instance.  The attach call succeeds but the volume still reads as unattached: the
    create reports nothing and the identifier is empty. *)
Lemma volume_create_after_attach_witness :
  ∃ e',
    resourceVolumeAttachmentCreate (scripted (healthy "")) sample_suffix create_env
    = Returned [] e'
    ∧ d e' = SetId "" (d create_env)
    ∧ calls e'
      = [CallFindVolume "vol-1"; CallAttachVolume "vol-1" "inst-1";
         CallFindVolume "vol-1"].
Proof.
  exact (volume_create_after_attach (scripted (healthy "")) sample_suffix
           create_env
           {| civogo.Volume.ID := "vol-1"; civogo.Volume.InstanceID := "" |}
           {| civogo.Volume.ID := "vol-1"; civogo.Volume.InstanceID := "" |}
           (Some ()) () () () eq_refl eq_refl eq_refl eq_refl).
Defined.
